(** * mcp-analyzer: project fingerprinting and tool-server configuration

    A shallow embedding of the core of the TypeScript sources

      - [src/project-planner.ts]   ([analyzeTechStack], [generateMCPConfig])
      - [src/utils/fs.ts]          ([scanProjectDirectory])
      - [src/project-analyzer.ts]  ([scanProject], [generateMCPConfig])
      - [src/utils/detectors.ts]   ([detectLanguageFromExtension])
      - [src/discovery-service.ts] ([discoverMCPServers])
      - [src/project-enhancer.ts]  ([generateEnhancedMCPConfig], [findNewTools])

    JavaScript strings are represented by their UTF-8 bytes ([string]);
    objects used as dictionaries are finite maps ([gmap string _]); arrays
    are lists.  Exceptions and the console are threaded explicitly. *)

From Stdlib Require Import Ascii String NArith ZArith.
From stdpp Require Import base option list strings gmap fin_maps pretty.

Local Open Scope string_scope.
Local Open Scope N_scope.
Local Open Scope list_scope.

(** ** Bytes and strings *)

Module Str.

(** Case folding used by the [i] flag of a regular expression whose
    pattern is ASCII: a pattern letter matches exactly its two ASCII
    cases (the canonicalisation of ECMAScript never maps a character
    outside ASCII to one inside). *)
Definition fold_case (c : ascii) : ascii :=
  let n := N_of_ascii c in
  if (65 <=? n) && (n <=? 90) then ascii_of_N (n + 32) else c.

Definition to_list : string → list ascii := list_ascii_of_string.
Definition of_list : list ascii → string := string_of_list_ascii.

Definition lower_ascii (s : string) : string :=
  of_list (fold_case <$> to_list s).

(** [s.startsWith(p)] on byte lists. *)
Fixpoint starts_with (p s : list ascii) : bool :=
  match p, s with
  | [], _ => true
  | a :: p', b :: s' => bool_decide (a = b) && starts_with p' s'
  | _ :: _, [] => false
  end.

(** [s.includes(p)]. *)
Fixpoint includes_l (p s : list ascii) : bool :=
  starts_with p s ||
  match s with
  | [] => false
  | _ :: s' => includes_l p s'
  end.

Definition includes (s p : string) : bool := includes_l (to_list p) (to_list s).

(** [s.split(sep)[0]] for a non-empty separator: the part of [s] before
    the first occurrence of [sep], all of [s] when there is none. *)
Fixpoint before_first_l (sep s : list ascii) : list ascii :=
  if starts_with sep s then []
  else match s with
       | [] => []
       | c :: s' => c :: before_first_l sep s'
       end.

Definition before_first (sep s : string) : string :=
  of_list (before_first_l (to_list sep) (to_list s)).

(** [s.split('\n')]: never empty, one more piece than line feeds. *)
Fixpoint split_lines_l (s : list ascii) : list (list ascii) :=
  match s with
  | [] => [[]]
  | c :: s' =>
      if bool_decide (c = "010"%char) then [] :: split_lines_l s'
      else match split_lines_l s' with
           | [] => [[c]]
           | l :: ls => (c :: l) :: ls
           end
  end.

Definition split_lines (s : string) : list string :=
  of_list <$> split_lines_l (to_list s).

(** Truthiness of a string: non-empty. *)
Definition truthy (s : string) : bool := negb (bool_decide (s = "")).

End Str.

(** ** Regular expressions

    The patterns of [analyzeTechStack] use literals, alternation, grouping,
    [?], [*], [+] and the class [\s], all under the [i] flag.  [match]
    without the [g] flag is truthy exactly when some substring of the
    subject belongs to the language of the pattern, which is what
    [Regex.test] decides, by Brzozowski derivatives. *)

Module Regex.

Inductive regex : Type :=
| Void
| Eps
| Chr (c : ascii)
| Alt (r1 r2 : regex)
| Seq (r1 r2 : regex)
| Star (r : regex).

Definition Opt (r : regex) : regex := Alt r Eps.
Definition Plus (r : regex) : regex := Seq r (Star r).

Fixpoint lit_l (s : list ascii) : regex :=
  match s with
  | [] => Eps
  | c :: s' => Seq (Chr c) (lit_l s')
  end.
Definition lit (s : string) : regex := lit_l (Str.to_list s).

Fixpoint alts (rs : list regex) : regex :=
  match rs with
  | [] => Void
  | [r] => r
  | r :: rs' => Alt r (alts rs')
  end.

Fixpoint seqs (rs : list regex) : regex :=
  match rs with
  | [] => Eps
  | [r] => r
  | r :: rs' => Seq r (seqs rs')
  end.

(** [\s]: the ECMAScript WhiteSpace and LineTerminator code points, as
    UTF-8 byte sequences. *)
Definition bytes (l : list N) : regex := lit_l (ascii_of_N <$> l).
Definition ws : regex :=
  alts [ bytes [9]; bytes [10]; bytes [11]; bytes [12]; bytes [13]; bytes [32];
         bytes [194; 160];                        (* U+00A0 *)
         bytes [225; 154; 128];                   (* U+1680 *)
         Seq (bytes [226; 128])                   (* U+2000 .. U+200A *)
             (alts ((λ b, bytes [b]) <$> [128; 129; 130; 131; 132; 133; 134; 135; 136; 137; 138]));
         bytes [226; 128; 168]; bytes [226; 128; 169];   (* U+2028, U+2029 *)
         bytes [226; 128; 175];                   (* U+202F *)
         bytes [226; 129; 159];                   (* U+205F *)
         bytes [227; 128; 128];                   (* U+3000 *)
         bytes [239; 187; 191] ].                 (* U+FEFF *)

(** The language of a pattern under the [i] flag. *)
Inductive Matches : regex → list ascii → Prop :=
| MEps : Matches Eps []
| MChr c b : Str.fold_case b = Str.fold_case c → Matches (Chr c) [b]
| MAltL r1 r2 w : Matches r1 w → Matches (Alt r1 r2) w
| MAltR r1 r2 w : Matches r2 w → Matches (Alt r1 r2) w
| MSeq r1 r2 w1 w2 : Matches r1 w1 → Matches r2 w2 → Matches (Seq r1 r2) (w1 ++ w2)
| MStarNil r : Matches (Star r) []
| MStarCons r w1 w2 : Matches r w1 → Matches (Star r) w2 → Matches (Star r) (w1 ++ w2).

Fixpoint nullable (r : regex) : bool :=
  match r with
  | Void => false
  | Eps => true
  | Chr _ => false
  | Alt r1 r2 => nullable r1 || nullable r2
  | Seq r1 r2 => nullable r1 && nullable r2
  | Star _ => true
  end.

Fixpoint deriv (b : ascii) (r : regex) : regex :=
  match r with
  | Void => Void
  | Eps => Void
  | Chr c => if bool_decide (Str.fold_case b = Str.fold_case c) then Eps else Void
  | Alt r1 r2 => Alt (deriv b r1) (deriv b r2)
  | Seq r1 r2 =>
      if nullable r1 then Alt (Seq (deriv b r1) r2) (deriv b r2)
      else Seq (deriv b r1) r2
  | Star r1 => Seq (deriv b r1) (Star r1)
  end.

(** Some prefix of [s] is in the language of [r]. *)
Fixpoint prefix_match (r : regex) (s : list ascii) : bool :=
  nullable r ||
  match s with
  | [] => false
  | b :: s' => prefix_match (deriv b r) s'
  end.

(** Some substring of [s] is in the language of [r]. *)
Fixpoint search (r : regex) (s : list ascii) : bool :=
  prefix_match r s ||
  match s with
  | [] => false
  | _ :: s' => search r s'
  end.

(** [subject.match(/r/i)] as a condition, [/r/i.test(subject)]. *)
Definition test (r : regex) (subject : string) : bool :=
  search r (Str.to_list subject).

End Regex.

(** ** The JavaScript runtime

    Built-ins whose result depends on Unicode tables, on the JSON grammar or
    on the pattern compiler are taken as an interface; every theorem below
    holds for all implementations of it.

    - [toLowerCase s], [trim s]: [String.prototype.toLowerCase], [trim];
    - [packageDeps content]: the object
      [{...(d.dependencies || {}), ...(d.devDependencies || {})}] for
      [d = JSON.parse(content)], as its own keys in [Object.keys] order with
      the truthiness of each value; [None] when the evaluation throws;
    - [regexpTest pattern subject]: [new RegExp(pattern, 'i').test(subject)],
      [None] when the pattern does not compile;
    - [firstParagraph readme]: capture group 1 of the first match of
      [/# .+?\n\n(.+?)(\n\n|$)/s], when there is a match and the group is
      not empty. *)
Class Runtime : Type := {
  toLowerCase : string → string;
  trim : string → string;
  packageDeps : string → option (list (string * bool));
  regexpTest : string → string → option bool;
  firstParagraph : string → option string
}.

(** [arr.includes(x)] *)
Definition includes (arr : list string) (x : string) : bool := bool_decide (x ∈ arr).

(** [if (!arr.includes(x)) arr.push(x)] *)
Definition push_new (x : string) (arr : list string) : list string :=
  if includes arr x then arr else arr ++ [x].

(** [[...new Set(arr)]]: first occurrences, in order. *)
Definition set_of (arr : list string) : list string :=
  foldl (λ acc x, push_new x acc) [] arr.

(** [if (cond && !arr.includes(x)) arr.push(x)] *)
Definition push_new_if (cond : bool) (x : string) (arr : list string) : list string :=
  if cond then push_new x arr else arr.

(** [if (cond) arr.push(x)] *)
Definition push_if (cond : bool) (x : string) (arr : list string) : list string :=
  if cond then arr ++ [x] else arr.

(** ** Tool-server configurations

    [MCPConfig] as the three modules declare it.  The enhancer receives the
    parsed [mcp.json] and tests [!newConfig.mcpServers], so the tool map may
    be absent.  A descriptor is an object, hence truthy: the test
    [!mcpServers[name]] is the absence of the key. *)

Record ServerEntry : Type := mkEntry {
  command : string;
  args : list string;
  env : option (gmap string string)
}.

Record MCPConfig : Type := mkConfig {
  mcpServers : option (gmap string ServerEntry)
}.

(** [Object.keys(obj)] and [Object.entries(obj)]. *)
Definition keys {A} (obj : gmap string A) : list string := (map_to_list obj).*1.
Definition entries {A} (obj : gmap string A) : list (string * A) := map_to_list obj.

(** ** The discovery collaborator ([src/discovery-service.ts]) *)

Module Discovery.

Record MCPServerInfo : Type := mkInfo {
  name : string;
  description : string;
  repository : string;
  installCommand : string;
  installArgs : list string;
  env : option (gmap string string)
}.

(** An element of the repository listing: [item.type], [item.name]. *)
Record RepoItem : Type := mkItem {
  item_type : string;
  item_name : string
}.

(** [await axios.get(url)]: the promise rejects or resolves. *)
Inductive response (A : Type) : Type :=
| Rejected
| Resolved (data : A).
Arguments Rejected {A}.
Arguments Resolved {A} data.

Inductive contents : Type :=
| NotAnArray
| Items (items : list RepoItem).

(** The remote side: the answer to the listing request, and to the README
    request of each directory name ([status], [data]). *)
Record Network : Type := mkNetwork {
  repoContents : response contents;
  readme : string → response (N * string)
}.

Definition fallbackServers : gmap string MCPServerInfo :=
  <["sequential-thinking" :=
      {| name := "sequential-thinking";
         description := "Enables step-by-step reasoning for complex problems";
         repository := "https://github.com/modelcontextprotocol/servers/tree/main/sequential-thinking";
         installCommand := "npx";
         installArgs := ["-y"; "@modelcontextprotocol/server-sequential-thinking"];
         env := None |}]>
  (<["brave-search" :=
      {| name := "brave-search";
         description := "Enables web searches using the Brave Search API";
         repository := "https://github.com/modelcontextprotocol/servers/tree/main/brave-search";
         installCommand := "npx";
         installArgs := ["-y"; "@modelcontextprotocol/server-brave-search"];
         env := Some {[ "BRAVE_API_KEY" := "YOUR_API_KEY_HERE" ]} |}]> ∅).

Section WithRuntime.
Context `{Runtime}.

(** [technologies.reduce(...)]: the number of technologies whose pattern
    matches the README; [None] when building a pattern throws. *)
Definition relevance (technologies : list string) (readmeContent : string) : option N :=
  foldl (λ score tech,
           s ← score;
           b ← regexpTest tech readmeContent;
           Some (s + (if b : bool then 1 else 0)))
        (Some 0) technologies.

(** The callback mapped over [serverDirs]; what it throws is caught and
    leaves [servers] as it was. *)
Definition processServerDir (net : Network) (technologies : list string)
    (servers : gmap string MCPServerInfo) (dir : RepoItem) : gmap string MCPServerInfo :=
  let dirName := item_name dir in
  match readme net dirName with
  | Rejected => servers
  | Resolved (status, readmeContent) =>
      let scored : option (string * N) :=
        if bool_decide (status = 200) then
          score ← relevance technologies readmeContent;
          Some (match firstParagraph readmeContent with
                | Some paragraph => trim paragraph
                | None => "MCP server for " +:+ dirName
                end, score)
        else Some ("MCP server for " +:+ dirName, 0) in
      match scored with
      | None => servers
      | Some (description, relevanceScore) =>
          let isEssentialServer := includes ["brave-search"; "sequential-thinking"] dirName in
          if (0 <? relevanceScore) || isEssentialServer ||
             bool_decide (length technologies = 0%nat)
          then
            <[dirName :=
                {| name := dirName;
                   description := description;
                   repository :=
                     "https://github.com/modelcontextprotocol/servers/tree/main/" +:+ dirName;
                   installCommand := "npx";
                   installArgs := ["-y"; "@modelcontextprotocol/server-" +:+ dirName];
                   env := if bool_decide (dirName = "brave-search")
                          then Some {[ "BRAVE_API_KEY" := "YOUR_API_KEY_HERE" ]}
                          else None |}]> servers
          else servers
      end
  end.

(** The [try] block of [discoverMCPServers]; [Rejected] when it throws. *)
Definition discoverBody (net : Network) (technologies : list string) :
    response (gmap string MCPServerInfo) :=
  match repoContents net with
  | Rejected => Rejected
  | Resolved NotAnArray => Resolved ∅
  | Resolved (Items items) =>
      let serverDirs :=
        filter (λ item, item_type item = "dir" ∧
                        Str.starts_with (Str.to_list ".") (Str.to_list (item_name item)) = false)
               items in
      Resolved (foldl (processServerDir net technologies) ∅ serverDirs)
  end.

Definition discoverMCPServers (net : Network) (technologies : list string) :
    gmap string MCPServerInfo :=
  match discoverBody net technologies with
  | Resolved servers => servers
  | Rejected => fallbackServers
  end.

End WithRuntime.

End Discovery.

(** The config entry built from a discovered server:
    [{ command, args, ...(serverInfo.env ? { env } : {}) }]. *)
Definition entryOf (serverInfo : Discovery.MCPServerInfo) : ServerEntry :=
  {| command := Discovery.installCommand serverInfo;
     args := Discovery.installArgs serverInfo;
     env := Discovery.env serverInfo |}.

(** [for (const [serverName, serverInfo] of Object.entries(discoveredServers))
       config.mcpServers[serverName] = {...}] *)
Definition addServers (discoveredServers : gmap string Discovery.MCPServerInfo)
    (servers : gmap string ServerEntry) : gmap string ServerEntry :=
  foldl (λ acc kv, <[kv.1 := entryOf kv.2]> acc) servers (entries discoveredServers).

(** ** The free-text classifier ([src/project-planner.ts]) *)

Module Planner.
Import Regex.

Record TechnologyStack : Type := mkStack {
  languages : list string;
  frameworks : list string;
  features : list string
}.

(** The patterns, in declaration order. *)
Definition re_typescript : regex :=
  alts [lit "typescript"; lit "ts"; lit "angular"; lit "react";
        seqs [lit "next"; Opt (lit "."); lit "js"]; lit "vue";
        seqs [lit "node"; Opt (lit "."); lit "js"]].
Definition re_javascript : regex :=
  alts [lit "javascript"; lit "js"; seqs [lit "node"; Opt (lit "."); lit "js"];
        lit "express"; lit "react"; lit "vue"].
Definition re_typescript_keyword : regex := alts [lit "typescript"; lit "ts"].
Definition re_python : regex :=
  alts [lit "python"; lit "django"; lit "flask"; lit "fastapi"; lit "jupyter";
        lit "numpy"; lit "pandas"].
Definition re_java : regex :=
  alts [lit "java"; lit "spring"; lit "springboot"; lit "gradle"; lit "maven"].
Definition re_go : regex := alts [lit "go"; lit "golang"].
Definition re_ruby : regex := alts [lit "ruby"; lit "rails"; lit "rack"; lit "sinatra"].
Definition re_csharp : regex := alts [lit "c#"; lit ".net"; lit "asp.net"; lit "dotnet"].
Definition re_php : regex := alts [lit "php"; lit "laravel"; lit "symfony"; lit "wordpress"].
Definition re_swift : regex := alts [lit "swift"; lit "ios"; lit "iphone"; lit "ipad"].
Definition re_kotlin : regex := alts [lit "kotlin"; lit "android"].
Definition re_rust : regex := alts [lit "rust"; lit "cargo"].

Definition re_react : regex := lit "react".
Definition re_next : regex := seqs [lit "next"; Opt (lit "."); lit "js"].
Definition re_vue : regex := alts [lit "vue"; seqs [lit "vue"; Opt (lit "."); lit "js"]].
Definition re_angular : regex := lit "angular".
Definition re_express : regex :=
  alts [lit "express"; seqs [lit "express"; Opt (lit "."); lit "js"]].
Definition re_django : regex := lit "django".
Definition re_flask : regex := lit "flask".
Definition re_fastapi : regex := lit "fastapi".
Definition re_rails : regex :=
  alts [lit "rails"; seqs [lit "ruby"; Plus ws; lit "on"; Plus ws; lit "rails"]].
Definition re_spring : regex := alts [lit "spring"; seqs [lit "spring"; Star ws; lit "boot"]].
Definition re_laravel : regex := lit "laravel".
Definition re_aspnet : regex := seqs [lit "asp.net"; Star ws; Opt (lit "core")].
Definition re_svelte : regex := lit "svelte".
Definition re_flutter : regex := lit "flutter".
Definition re_gatsby : regex := lit "gatsby".
Definition re_nuxt : regex := lit "nuxt".

Definition re_api : regex :=
  alts [lit "api"; lit "rest"; lit "restful"; lit "graphql"; lit "endpoint"].
Definition re_database : regex :=
  alts [lit "database"; lit "db"; lit "sql"; lit "nosql"; lit "mongo"; lit "postgres";
        lit "mysql"; lit "sqlite"].
Definition re_auth : regex :=
  alts [lit "auth"; lit "authentication"; lit "login"; lit "user"; lit "permission";
        lit "role"; lit "jwt"; lit "oauth"].
Definition re_frontend : regex :=
  alts [lit "frontend"; lit "ui"; lit "interface"; lit "client"; lit "spa";
        seqs [lit "single"; Star ws; lit "page"]].
Definition re_backend : regex := alts [lit "backend"; lit "server"; lit "api"].
Definition re_mobile : regex :=
  alts [lit "mobile"; lit "ios"; lit "android"; lit "app";
        seqs [lit "react"; Star ws; lit "native"]].
Definition re_testing : regex :=
  alts [lit "test"; lit "jest"; lit "mocha"; lit "cypress"; lit "testing";
        seqs [lit "unit"; Star ws; lit "test"]; lit "e2e"].
Definition re_container : regex :=
  alts [lit "docker"; lit "container"; lit "kubernetes"; lit "k8s"; lit "containeriz"].
Definition re_cicd : regex :=
  alts [lit "ci"; lit "cd"; lit "ci/cd";
        seqs [lit "continuous"; Star ws; lit "integration"];
        seqs [lit "continuous"; Star ws; lit "deployment"];
        seqs [lit "github"; Star ws; lit "actions"]; lit "jenkins"].
Definition re_storage : regex :=
  alts [lit "file"; lit "upload"; lit "download"; lit "storage"; lit "s3"; lit "blob"].
Definition re_realtime : regex :=
  alts [seqs [lit "real"; Star ws; lit "time"]; lit "websocket"; lit "socket.io";
        seqs [lit "live"; Star ws; lit "update"]].
Definition re_analytics : regex :=
  alts [lit "analytics"; lit "metrics"; lit "monitoring"; lit "logging"].

Definition detect_languages (description : string) : list string :=
  let m r := test r description in
  let l := [] in
  let l := push_if (m re_typescript) "TypeScript" l in
  let l := push_if (m re_javascript && negb (m re_typescript_keyword)) "JavaScript" l in
  let l := push_if (m re_python) "Python" l in
  let l := push_if (m re_java) "Java" l in
  let l := push_if (m re_go) "Go" l in
  let l := push_if (m re_ruby) "Ruby" l in
  let l := push_if (m re_csharp) "C#" l in
  let l := push_if (m re_php) "PHP" l in
  let l := push_if (m re_swift) "Swift" l in
  let l := push_if (m re_kotlin) "Kotlin" l in
  let l := push_if (m re_rust) "Rust" l in
  l.

Definition detect_frameworks (description : string) : list string :=
  let m r := test r description in
  let l := [] in
  let l := push_if (m re_react) "React" l in
  let l := push_if (m re_next) "Next.js" l in
  let l := push_if (m re_vue) "Vue.js" l in
  let l := push_if (m re_angular) "Angular" l in
  let l := push_if (m re_express) "Express" l in
  let l := push_if (m re_django) "Django" l in
  let l := push_if (m re_flask) "Flask" l in
  let l := push_if (m re_fastapi) "FastAPI" l in
  let l := push_if (m re_rails) "Rails" l in
  let l := push_if (m re_spring) "Spring" l in
  let l := push_if (m re_laravel) "Laravel" l in
  let l := push_if (m re_aspnet) "ASP.NET" l in
  let l := push_if (m re_svelte) "Svelte" l in
  let l := push_if (m re_flutter) "Flutter" l in
  let l := push_if (m re_gatsby) "Gatsby" l in
  let l := push_if (m re_nuxt) "Nuxt.js" l in
  l.

Definition detect_features (description : string) : list string :=
  let m r := test r description in
  let l := [] in
  let l := push_if (m re_api) "API" l in
  let l := push_if (m re_database) "Database" l in
  let l := push_if (m re_auth) "Authentication" l in
  let l := push_if (m re_frontend) "Frontend" l in
  let l := push_if (m re_backend) "Backend" l in
  let l := push_if (m re_mobile) "Mobile" l in
  let l := push_if (m re_testing) "Testing" l in
  let l := push_if (m re_container) "Containerization" l in
  let l := push_if (m re_cicd) "CI/CD" l in
  let l := push_if (m re_storage) "File Storage" l in
  let l := push_if (m re_realtime) "Real-time" l in
  let l := push_if (m re_analytics) "Analytics" l in
  l.

Definition analyzeTechStack (description : string) : TechnologyStack :=
  {| languages := detect_languages description;
     frameworks := detect_frameworks description;
     features := detect_features description |}.

Section Synthesis.
Context `{Runtime}.

(** [[...languages, ...frameworks, ...features.map(f => f.toLowerCase())]] *)
Definition technologiesOf (techStack : TechnologyStack) : list string :=
  languages techStack ++ frameworks techStack ++ (toLowerCase <$> features techStack).

Definition generateMCPConfig (net : Discovery.Network) (techStack : TechnologyStack) : MCPConfig :=
  let technologies := technologiesOf techStack in
  let discoveredServers := Discovery.discoverMCPServers net technologies in
  {| mcpServers := Some (addServers discoveredServers ∅) |}.

End Synthesis.

End Planner.

(** ** Project statistics and the directory tree *)

Record ProjectStats : Type := mkStats {
  fileTypes : gmap string N;
  languages : list string;
  frameworks : list string;
  dependencies : list string;
  features : list string
}.

Definition emptyStats : ProjectStats :=
  {| fileTypes := ∅; languages := []; frameworks := []; dependencies := []; features := [] |}.

Definition set_fileTypes (f : gmap string N → gmap string N) (s : ProjectStats) : ProjectStats :=
  {| fileTypes := f (fileTypes s); languages := languages s; frameworks := frameworks s;
     dependencies := dependencies s; features := features s |}.
Definition set_languages (f : list string → list string) (s : ProjectStats) : ProjectStats :=
  {| fileTypes := fileTypes s; languages := f (languages s); frameworks := frameworks s;
     dependencies := dependencies s; features := features s |}.
Definition set_frameworks (f : list string → list string) (s : ProjectStats) : ProjectStats :=
  {| fileTypes := fileTypes s; languages := languages s; frameworks := f (frameworks s);
     dependencies := dependencies s; features := features s |}.
Definition set_dependencies (f : list string → list string) (s : ProjectStats) : ProjectStats :=
  {| fileTypes := fileTypes s; languages := languages s; frameworks := frameworks s;
     dependencies := f (dependencies s); features := features s |}.
Definition set_features (f : list string → list string) (s : ProjectStats) : ProjectStats :=
  {| fileTypes := fileTypes s; languages := languages s; frameworks := frameworks s;
     dependencies := dependencies s; features := f (features s) |}.

(** [stats.fileTypes[ext] = (stats.fileTypes[ext] || 0) + 1] *)
Definition count_ext (ext : string) (m : gmap string N) : gmap string N :=
  <[ext := default 0 (m !! ext) + 1]> m.

(** An error as [catch] sees it: [error.code] and [error.message]. *)
Record NodeError : Type := mkError {
  code : option string;
  message : string
}.

(** What [fs.readdir(path, { withFileTypes: true })] and [fs.readFile]
    answer below one directory.  Directory entries that are neither files
    nor directories (symbolic links, sockets, ...) are [Other]. *)
Inductive entry : Type :=
| File (name : string) (content : option string)
| Dir (name : string) (d : dir)
| Other (name : string)
with dir : Type :=
| Listing (entries : list entry)
| Unreadable (error : NodeError).

Definition entry_name (e : entry) : string :=
  match e with
  | File name _ | Dir name _ | Other name => name
  end.

(** ** Effects: exceptions, the shared [stats] object, the console *)

Inductive console_line : Type :=
| Warn (text : string)
| Error (text : string).

Record Env : Type := mkEnv {
  stats : ProjectStats;
  console : list console_line
}.

Inductive outcome (A : Type) : Type :=
| Returned (a : A)
| Thrown (e : NodeError).
Arguments Returned {A} a.
Arguments Thrown {A} e.

Definition M (A : Type) : Type := Env → outcome A * Env.

Global Instance M_ret : MRet M := λ A a env, (Returned a, env).
Global Instance M_bind : MBind M := λ A B f m env,
  match m env with
  | (Returned a, env') => f a env'
  | (Thrown e, env') => (Thrown e, env')
  end.

Definition throw {A} (e : NodeError) : M A := λ env, (Thrown e, env).

Definition try_catch {A} (body : M A) (handler : NodeError → M A) : M A := λ env,
  match body env with
  | (Returned a, env') => (Returned a, env')
  | (Thrown e, env') => handler e env'
  end.

Definition console_warn (text : string) : M unit := λ env,
  (Returned tt, {| stats := stats env; console := console env ++ [Warn text] |}).
Definition console_error (text : string) : M unit := λ env,
  (Returned tt, {| stats := stats env; console := console env ++ [Error text] |}).

Definition update_stats (f : ProjectStats → ProjectStats) : M unit := λ env,
  (Returned tt, {| stats := f (stats env); console := console env |}).

(** [await fs.readdir(...)] *)
Definition readdir (d : dir) : M (list entry) :=
  match d with
  | Listing entries => mret entries
  | Unreadable error => throw error
  end.

(** ** Paths *)

Module Path.

(** [path.join(dir, name)] for a normalised [dir] and an entry [name]. *)
Definition join (dir name : string) : string := dir +:+ "/" +:+ name.

Record scan : Type := mkScan {
  startDot : Z;
  startPart : Z;
  end_ : Z;
  matchedSlash : bool;
  preDotState : Z
}.

(** The loop of [posix.extname], from the last byte to the first. *)
Fixpoint extname_loop (rev_path : list ascii) (i : Z) (st : scan) : scan :=
  match rev_path with
  | [] => st
  | c :: rest =>
      if bool_decide (c = "/"%char) then
        if negb (matchedSlash st) then
          mkScan (startDot st) (i + 1) (end_ st) (matchedSlash st) (preDotState st)
        else extname_loop rest (i - 1) st
      else
        let st :=
          if (end_ st =? -1)%Z
          then mkScan (startDot st) (startPart st) (i + 1) false (preDotState st)
          else st in
        let st :=
          if bool_decide (c = "."%char) then
            if (startDot st =? -1)%Z
            then mkScan i (startPart st) (end_ st) (matchedSlash st) (preDotState st)
            else if negb (preDotState st =? 1)%Z
            then mkScan (startDot st) (startPart st) (end_ st) (matchedSlash st) 1
            else st
          else if negb (startDot st =? -1)%Z
          then mkScan (startDot st) (startPart st) (end_ st) (matchedSlash st) (-1)
          else st in
        extname_loop rest (i - 1) st
  end.

(** [path.extname(p)] *)
Definition extname (p : string) : string :=
  let bytes := Str.to_list p in
  let st := extname_loop (rev bytes) (Z.of_nat (length bytes) - 1)
              (mkScan (-1) 0 (-1) true 0) in
  if (startDot st =? -1)%Z || (end_ st =? -1)%Z || (preDotState st =? 0)%Z ||
     ((preDotState st =? 1)%Z && (startDot st =? end_ st - 1)%Z &&
      (startDot st =? startPart st + 1)%Z)
  then ""
  else Str.of_list (take (Z.to_nat (end_ st - startDot st))
                         (drop (Z.to_nat (startDot st)) bytes)).

End Path.

(** The directory names both walks skip. *)
Definition ignoredDirectory (name : string) : bool :=
  bool_decide (name = "node_modules") || bool_decide (name = ".git") ||
  bool_decide (name = "venv") || bool_decide (name = "__pycache__") ||
  bool_decide (name = ".next") || bool_decide (name = "dist") ||
  bool_decide (name = "build").

(** ** The bounded walk ([src/utils/fs.ts]) *)

Definition MAX_SCAN_DEPTH : N := 10.
Definition MAX_FILES : N := 10000.

Section Walks.
Context `{Runtime}.

(** The body of [for (const entry of entries)] in [scanProjectDirectory];
    [recurse] is the function itself one level down.  [fileCount] is the
    local copy of the parameter: the loop increments it, a recursive call
    receives its current value and its own increments stay in the callee. *)
Definition scanEntries (recurse : dir → string → N → M unit) (projectPath : string) :
    list entry → N → M unit :=
  fix loop (entries : list entry) (fileCount : N) : M unit :=
    match entries with
    | [] => mret tt
    | entry :: rest =>
        let fullPath := Path.join projectPath (entry_name entry) in
        match entry with
        | Dir name sub =>
            if ignoredDirectory name then loop rest fileCount
            else recurse sub fullPath fileCount ;; loop rest fileCount
        | File name _ =>
            let ext := toLowerCase (Path.extname name) in
            (if Str.truthy ext then update_stats (set_fileTypes (count_ext ext)) else mret tt) ;;
            loop rest (fileCount + 1)
        | Other _ => loop rest fileCount
        end
    end.

(** The [catch] clause of [scanProjectDirectory]. *)
Definition onScanError (projectPath : string) (error : NodeError) : M unit :=
  if bool_decide (code error = Some "EACCES")
  then console_warn ("Permission denied accessing " +:+ projectPath)
  else throw error.

Fixpoint scanProjectDirectory (root : dir) (projectPath : string)
    (currentDepth fileCount : N) : M unit :=
  if (MAX_SCAN_DEPTH <=? currentDepth) || (MAX_FILES <=? fileCount) then mret tt
  else
    try_catch
      match root with
      | Unreadable error => throw error
      | Listing entries =>
          scanEntries
            (λ sub fullPath count, scanProjectDirectory sub fullPath (currentDepth + 1) count)
            projectPath entries fileCount
      end
      (onScanError projectPath).

(** ** Language detection ([src/utils/detectors.ts]) *)

Definition languageMap : gmap string string :=
  list_to_map
    [(".js", "JavaScript"); (".jsx", "JavaScript"); (".ts", "TypeScript");
     (".tsx", "TypeScript"); (".py", "Python"); (".java", "Java"); (".go", "Go");
     (".rb", "Ruby"); (".rake", "Ruby"); (".php", "PHP"); (".cs", "C#"); (".rs", "Rust");
     (".swift", "Swift"); (".kt", "Kotlin"); (".kts", "Kotlin"); (".dart", "Dart")].

Definition detectLanguageFromExtension (ext : string) (s : ProjectStats) : ProjectStats :=
  match languageMap !! ext with
  | Some language =>
      if Str.truthy language && negb (includes (languages s) language)
      then set_languages (λ l, l ++ [language]) s
      else s
  | None => s
  end.

(** ** The analyzer's walk ([src/project-analyzer.ts]) *)

(** The [if ... else if ...] chain on the extension in [scanDir]. *)
Definition detectLanguageInline (ext : string) (langs : list string) : list string :=
  if includes [".js"; ".jsx"] ext && negb (includes langs "JavaScript") then langs ++ ["JavaScript"]
  else if includes [".ts"; ".tsx"] ext && negb (includes langs "TypeScript") then langs ++ ["TypeScript"]
  else if bool_decide (ext = ".py") && negb (includes langs "Python") then langs ++ ["Python"]
  else if bool_decide (ext = ".java") && negb (includes langs "Java") then langs ++ ["Java"]
  else if bool_decide (ext = ".go") && negb (includes langs "Go") then langs ++ ["Go"]
  else if includes [".rb"; ".rake"] ext && negb (includes langs "Ruby") then langs ++ ["Ruby"]
  else if includes [".php"] ext && negb (includes langs "PHP") then langs ++ ["PHP"]
  else if includes [".cs"] ext && negb (includes langs "C#") then langs ++ ["C#"]
  else if includes [".rs"] ext && negb (includes langs "Rust") then langs ++ ["Rust"]
  else if includes [".swift"] ext && negb (includes langs "Swift") then langs ++ ["Swift"]
  else if includes [".kt"; ".kts"] ext && negb (includes langs "Kotlin") then langs ++ ["Kotlin"]
  else if includes [".dart"] ext && negb (includes langs "Dart") then langs ++ ["Dart"]
  else langs.

(** [deps[key]] as a condition. *)
Definition dep (deps : list (string * bool)) (key : string) : bool :=
  match list_find (λ kv, kv.1 = key) deps with
  | Some (_, (_, truthy)) => truthy
  | None => false
  end.

(** The [package.json] block after [deps] has been computed. *)
Definition fromPackageDeps (deps : list (string * bool)) (s : ProjectStats) : ProjectStats :=
  let d := dep deps in
  let s := set_dependencies (λ l, foldl (λ acc k, push_new k acc) l (deps.*1)) s in
  let s := set_frameworks (λ l,
    let l := push_new_if (d "react") "React" l in
    let l := push_new_if (d "vue") "Vue" l in
    let l := push_new_if (d "next") "Next.js" l in
    let l := push_new_if (d "express") "Express" l in
    let l := push_new_if (d "angular" || d "@angular/core") "Angular" l in
    let l := push_new_if (d "svelte") "Svelte" l in
    let l := push_new_if (d "gatsby") "Gatsby" l in
    let l := push_new_if (d "nuxt") "Nuxt.js" l in
    l) s in
  let s := set_features (λ l,
    let l := push_if (d "passport" || d "jsonwebtoken" || d "auth0" || d "firebase-auth")
               "Authentication" l in
    let l := push_if (d "mongoose" || d "sequelize" || d "typeorm" || d "prisma" ||
                      d "pg" || d "mysql" || d "sqlite" || d "mongodb") "Database" l in
    let l := push_if (d "express" || d "fastify" || d "koa" || d "hapi" ||
                      d "restify" || d "nest" || d "graphql") "API" l in
    let l := push_if (d "jest" || d "mocha" || d "jasmine" || d "cypress" ||
                      d "playwright" || d "vitest" || d "chai") "Testing" l in
    let l := push_if (d "docker-compose" || d "kubernetes" || d "k8s") "Containerization" l in
    let l := push_if (d "multer" || d "aws-sdk" || d "@aws-sdk/client-s3" ||
                      d "firebase-storage" || d "cloudinary") "File Storage" l in
    let l := push_if (d "socket.io" || d "ws" || d "websocket") "Real-time" l in
    l) s in
  s.

(** The package names of a [requirements.txt]. *)
Definition requirementNames (content : string) : list string :=
  (λ line, trim (Str.before_first ">=" (Str.before_first "==" line))) <$>
  filter (λ line, Str.truthy line = true) (trim <$> Str.split_lines content).

(** [reqs.some(r => names.includes(r.toLowerCase()))] *)
Definition someReq (reqs : list string) (names : list string) : bool :=
  existsb (λ r, includes names (toLowerCase r)) reqs.

Definition fromRequirements (reqs : list string) (s : ProjectStats) : ProjectStats :=
  let s := set_dependencies (λ l,
    foldl (λ acc req, if Str.truthy req then push_new req acc else acc) l reqs) s in
  let s := set_frameworks (λ l,
    let l := push_new_if (someReq reqs ["django"]) "Django" l in
    let l := push_new_if (someReq reqs ["flask"]) "Flask" l in
    let l := push_new_if (someReq reqs ["fastapi"]) "FastAPI" l in
    l) s in
  let s := set_features (λ l,
    let l := push_if (someReq reqs ["authlib"; "flask-login"; "django-auth"; "python-jose";
                                    "djangorestframework-simplejwt"]) "Authentication" l in
    let l := push_if (someReq reqs ["sqlalchemy"; "django-orm"; "pymongo"; "psycopg2";
                                    "mysql-connector-python"]) "Database" l in
    let l := push_if (someReq reqs ["django-rest-framework"; "flask-restful"; "fastapi";
                                    "graphene"]) "API" l in
    let l := push_if (someReq reqs ["pytest"; "unittest"; "nose"; "behave"; "robot"])
               "Testing" l in
    l) s in
  s.

(** The special-file chain of [scanDir]; [content] is what [fs.readFile]
    gives for the file, [None] when it rejects. *)
Definition specialFile (name : string) (content : option string) (s : ProjectStats) :
    ProjectStats :=
  if bool_decide (name = "package.json") then
    match content ≫= packageDeps with
    | Some deps => fromPackageDeps deps s
    | None => s
    end
  else if bool_decide (name = "requirements.txt") then
    match content with
    | Some content => fromRequirements (requirementNames content) s
    | None => s
    end
  else if bool_decide (name = "build.gradle") || bool_decide (name = "pom.xml") then
    let s := set_languages (push_new "Java") s in
    let s := set_frameworks (push_new_if (bool_decide (name = "build.gradle")) "Gradle") s in
    let s := set_frameworks (push_new_if (bool_decide (name = "pom.xml")) "Maven") s in
    match content with
    | Some content =>
        set_frameworks (push_new_if (Str.includes content "org.springframework") "Spring") s
    | None => s
    end
  else if bool_decide (name = "Gemfile") then
    let s := set_languages (push_new "Ruby") s in
    match content with
    | Some content => set_frameworks (push_new_if (Str.includes content "rails") "Rails") s
    | None => s
    end
  else if bool_decide (name = "Dockerfile") || bool_decide (name = "docker-compose.yml") ||
          bool_decide (name = "docker-compose.yaml") then
    set_features (λ l, l ++ ["Containerization"]) s
  else if bool_decide (name = ".github/workflows") || bool_decide (name = "Jenkinsfile") ||
          bool_decide (name = ".gitlab-ci.yml") then
    set_features (λ l, l ++ ["CI/CD"]) s
  else s.

(** The [entry.isFile()] branch of [scanDir]. *)
Definition scanFile (name : string) (content : option string) (s : ProjectStats) :
    ProjectStats :=
  let ext := toLowerCase (Path.extname name) in
  let s :=
    if Str.truthy ext
    then set_languages (detectLanguageInline ext) (set_fileTypes (count_ext ext) s)
    else s in
  specialFile name content s.

(** The body of [for (const entry of entries)] in [scanDir]. *)
Definition scanDirEntries (recurse : dir → string → M unit) (dirPath : string) :
    list entry → M unit :=
  fix loop (entries : list entry) : M unit :=
    match entries with
    | [] => mret tt
    | entry :: rest =>
        let fullPath := Path.join dirPath (entry_name entry) in
        match entry with
        | Dir name sub =>
            if ignoredDirectory name then loop rest
            else recurse sub fullPath ;; loop rest
        | File name content => update_stats (scanFile name content) ;; loop rest
        | Other _ => loop rest
        end
    end.

(** [String(error)] for an [Error] object. *)
Definition errorToString (error : NodeError) : string := "Error: " +:+ message error.

Fixpoint scanDir (root : dir) (dirPath : string) : M unit :=
  try_catch
    match root with
    | Unreadable error => throw error
    | Listing entries => scanDirEntries scanDir dirPath entries
    end
    (λ error,
       console_error ("Error scanning directory " +:+ dirPath +:+ ": " +:+ errorToString error)).

(** [scanProject]: a fresh [stats], the walk, then the features made a set. *)
Definition scanProject (root : dir) (projectPath : string) : M ProjectStats := λ env,
  match scanDir root projectPath {| stats := emptyStats; console := console env |} with
  | (Returned _, env') =>
      (Returned (set_features set_of (stats env')),
       {| stats := stats env; console := console env' |})
  | (Thrown e, env') => (Thrown e, {| stats := stats env; console := console env' |})
  end.

End Walks.

(** ** The analyzer's entry point ([src/project-analyzer.ts]) *)

Module Analyzer.

(** What [analyzeProject] resolves to: the report, here as the data it
    renders, or the text [Error analyzing project: ...]. *)
Inductive analysis : Type :=
| Report (stats : ProjectStats) (mcpConfig : MCPConfig)
| Failure (text : string).

(** The file-system calls of [analyzeProject] outside the walk:
    [fs.access(projectPath)] and the two [fs.writeFile]; [Some error] when
    the call rejects.  ([fs.mkdir] is wrapped in its own [try];
    [generateRules] catches what its search throws, and the rules are not
    part of the report data kept here.) *)
Record Disk : Type := mkDisk {
  access : option NodeError;
  writeConfig : option NodeError;
  writeRules : option NodeError
}.

Definition attempt (step : option NodeError) : M unit :=
  match step with
  | Some error => throw error
  | None => mret tt
  end.

Section Synthesis.
Context `{Runtime}.

(** [[...languages, ...frameworks, ...features.map(f => f.toLowerCase())]] *)
Definition technologiesOf (stats : ProjectStats) : list string :=
  languages stats ++ frameworks stats ++ (toLowerCase <$> features stats).

Definition generateMCPConfig (net : Discovery.Network) (stats : ProjectStats) : MCPConfig :=
  let technologies := technologiesOf stats in
  let discoveredServers := Discovery.discoverMCPServers net technologies in
  {| mcpServers := Some (addServers discoveredServers ∅) |}.

Definition analyzeProject (net : Discovery.Network) (disk : Disk) (root : dir)
    (projectPath : string) : M analysis :=
  try_catch
    (attempt (access disk) ;;
     stats ← scanProject root projectPath;
     let mcpConfig := generateMCPConfig net stats in
     attempt (writeConfig disk) ;;
     attempt (writeRules disk) ;;
     mret (Report stats mcpConfig))
    (λ error, mret (Failure ("Error analyzing project: " +:+ message error))).

End Synthesis.

End Analyzer.

(** ** The enhancer ([src/project-enhancer.ts]) *)

Module Enhancer.


(** [for (...) if (!newConfig.mcpServers[serverName]) newConfig.mcpServers[serverName] = {...}] *)
Definition addMissingServers (discoveredServers : gmap string Discovery.MCPServerInfo)
    (servers : gmap string ServerEntry) : gmap string ServerEntry :=
  foldl (λ acc kv,
           match acc !! kv.1 with
           | None => <[kv.1 := entryOf kv.2]> acc
           | Some _ => acc
           end)
        servers (entries discoveredServers).

Section Synthesis.
Context `{Runtime}.

Definition generateEnhancedMCPConfig (net : Discovery.Network)
    (techStack : Planner.TechnologyStack) (existingConfig : MCPConfig) : MCPConfig :=
  (* JSON.parse(JSON.stringify(existingConfig)): a copy with the same content *)
  let newConfig := existingConfig in
  let servers :=
    match mcpServers newConfig with
    | Some servers => servers
    | None => ∅
    end in
  let technologies := Planner.technologiesOf techStack in
  let discoveredServers := Discovery.discoverMCPServers net technologies in
  {| mcpServers := Some (addMissingServers discoveredServers servers) |}.

End Synthesis.

(** [oldConfig.mcpServers || {}] *)
Definition serversOrEmpty (config : MCPConfig) : gmap string ServerEntry :=
  default ∅ (mcpServers config).

Definition findNewTools (oldConfig newConfig : MCPConfig) : list string :=
  let oldTools := keys (serversOrEmpty oldConfig) in
  let newTools := keys (serversOrEmpty newConfig) in
  filter (λ tool, includes oldTools tool = false) newTools.

End Enhancer.

(** ** Sample inputs

    A runtime for ASCII text, to run the model on concrete inputs: ASCII
    lower-casing and trimming; a manifest reader for manifests written as
    the blank-separated list of their dependency names; patterns read as
    literal text. *)

Module Sample.

Fixpoint drop_spaces (s : list ascii) : list ascii :=
  match s with
  | c :: s' => if Ascii.is_space c then drop_spaces s' else s
  | [] => []
  end.

Definition trim_ascii (s : string) : string :=
  Str.of_list (rev (drop_spaces (rev (drop_spaces (Str.to_list s))))).

Definition runtime : Runtime :=
  {| toLowerCase := Str.lower_ascii;
     trim := trim_ascii;
     packageDeps := λ content, Some ((λ dep, (dep, true)) <$> String.words content);
     regexpTest := λ pattern subject, Some (Regex.test (Regex.lit pattern) subject);
     firstParagraph := λ _, None |}.

(** [count] files [f0_.js], [f1_.js], ... *)
Definition manyFiles (count : N) : list entry :=
  (λ i : nat, File (("f" +:+ pretty (N.of_nat i)) +:+ "_.js") None) <$> seq 0 (N.to_nat count).

(** Three sibling directories of [MAX_FILES] files each. *)
Definition threeFullDirectories : dir :=
  Listing ((λ name, Dir name (Listing (manyFiles MAX_FILES))) <$> ["a"; "b"; "c"]).

(** A file eleven directories below the root. *)
Fixpoint nested (depth : nat) (inner : dir) : dir :=
  match depth with
  | O => inner
  | S depth' => Listing [Dir "d" (nested depth' inner)]
  end.
Definition deepFile : dir := nested 11 (Listing [File "deep.py" None]).

(** A dependency directory with Python sources next to one script. *)
Definition withNodeModules : dir :=
  Listing [Dir "node_modules" (Listing [Dir "pkg" (Listing [File "setup.py" None;
                                                            File "requirements.txt" (Some "django")])]);
           File "index.js" None].



Definition unreachable : Discovery.Network :=
  {| Discovery.repoContents := Discovery.Rejected;
     Discovery.readme := λ _, Discovery.Rejected |}.



Definition start : Env := {| stats := emptyStats; console := [] |}.

End Sample.

(** ** Vocabulary of the statements *)

(** The three lists that are guarded by [includes] at every [push]. *)
Definition Unique (s : ProjectStats) : Prop :=
  NoDup (languages s) ∧ NoDup (frameworks s) ∧ NoDup (dependencies s).

(** An entry with its subdirectory, if it is one, replaced. *)
Definition map_subdir (f : string → dir → dir) (e : entry) : entry :=
  match e with
  | Dir name sub => Dir name (f name sub)
  | _ => e
  end.

(** The tree with every ignored directory emptied. *)
Fixpoint prune (d : dir) : dir :=
  match d with
  | Listing entries =>
      Listing (map_subdir (λ name sub, if ignoredDirectory name then Listing [] else prune sub)
                 <$> entries)
  | Unreadable error => Unreadable error
  end.

(** The tree cut [levels] directories below its root: what lies deeper is
    replaced by the empty listing. *)
Fixpoint truncate (levels : nat) (d : dir) : dir :=
  match levels with
  | O => Listing []
  | S levels' =>
      match d with
      | Listing entries => Listing (map_subdir (λ _ sub, truncate levels' sub) <$> entries)
      | Unreadable error => Unreadable error
      end
  end.

(** The count recorded for an extension, [0] when there is none. *)
Definition countOf (ext : string) (env : Env) : N :=
  default 0 (fileTypes (stats env) !! ext).

(** An action leaves a property of [stats] standing. *)
Definition preserves (I : ProjectStats → Prop) {A} (m : M A) : Prop :=
  ∀ env, I (stats env) → I (stats (m env).2).

(** An action never throws. *)
Definition returns {A} (m : M A) : Prop :=
  ∀ env, ∃ a env', m env = (Returned a, env').


(** Every entry is a regular file whose lower-cased extension is [ext]. *)
Definition allFilesOf `{Runtime} (ext : string) (entries : list entry) : bool :=
  forallb (λ e, match e with
                | File name _ => bool_decide (toLowerCase (Path.extname name) = ext)
                | _ => false
                end) entries.

(** ** Vocabulary of the further statements *)

(** The regular files of a listing whose lower-cased extension is [ext]. *)
Fixpoint ownCount `{Runtime} (ext : string) (entries : list entry) : N :=
  match entries with
  | [] => 0
  | File name _ :: rest =>
      (if bool_decide (toLowerCase (Path.extname name) = ext) then 1 else 0) + ownCount ext rest
  | _ :: rest => ownCount ext rest
  end.

(** A listing without subdirectories. *)
Definition noDirectories (entries : list entry) : bool :=
  forallb (λ e, match e with Dir _ _ => false | _ => true end) entries.

(** The regular files with extension [ext] in a tree, outside the ignored
    directories; a directory that cannot be listed holds none. *)
Fixpoint extCount `{Runtime} (ext : string) (d : dir) : N :=
  match d with
  | Unreadable _ => 0
  | Listing entries =>
      foldr (λ e acc,
               match e with
               | File name _ =>
                   if bool_decide (toLowerCase (Path.extname name) = ext) then 1 else 0
               | Dir name sub => if ignoredDirectory name then 0 else extCount ext sub
               | Other _ => 0
               end + acc) 0 entries
  end.

(** The labels [scanProject] can produce. *)
Definition scannedLanguages : list string :=
  ["JavaScript"; "TypeScript"; "Python"; "Java"; "Go"; "Ruby"; "PHP"; "C#"; "Rust";
   "Swift"; "Kotlin"; "Dart"].
Definition scannedFrameworks : list string :=
  ["React"; "Vue"; "Next.js"; "Express"; "Angular"; "Svelte"; "Gatsby"; "Nuxt.js";
   "Django"; "Flask"; "FastAPI"; "Gradle"; "Maven"; "Spring"; "Rails"].
Definition scannedFeatures : list string :=
  ["Authentication"; "Database"; "API"; "Testing"; "Containerization"; "File Storage";
   "Real-time"; "CI/CD"].

Definition Known (s : ProjectStats) : Prop :=
  Forall (λ x, x ∈ scannedLanguages) (languages s) ∧
  Forall (λ x, x ∈ scannedFrameworks) (frameworks s) ∧
  Forall (λ x, x ∈ scannedFeatures) (features s).

(** A count is kept only for a non-empty extension and is never zero. *)
Definition Counted (s : ProjectStats) : Prop :=
  ∀ ext n, fileTypes s !! ext = Some n → Str.truthy ext = true ∧ 0 < n.

(** ** Framework and feature detection ([src/utils/detectors.ts])

    [deps] is the dependencies object, as its entries in [Object.entries]
    order. *)

Module Detectors.

Definition frameworkTable : list (string * string) :=
  [("react", "React"); ("vue", "Vue"); ("next", "Next.js"); ("express", "Express");
   ("angular", "Angular"); ("@angular/core", "Angular"); ("svelte", "Svelte");
   ("gatsby", "Gatsby"); ("nuxt", "Nuxt.js")].

Definition frameworkMap : gmap string string := list_to_map frameworkTable.

Definition detectFrameworksFromDependencies (deps : list (string * string))
    (s : ProjectStats) : ProjectStats :=
  foldl (λ s kv,
           match frameworkMap !! kv.1 with
           | Some framework =>
               if Str.truthy framework && negb (includes (frameworks s) framework)
               then set_frameworks (λ l, l ++ [framework]) s
               else s
           | None => s
           end) s deps.

(** [featureDependencies], in the order of the object literal. *)
Definition featureDependencies : list (string * string) :=
  [("passport", "Authentication"); ("jsonwebtoken", "Authentication");
   ("auth0", "Authentication"); ("firebase-auth", "Authentication");
   ("mongoose", "Database"); ("sequelize", "Database"); ("typeorm", "Database");
   ("prisma", "Database"); ("pg", "Database"); ("mysql", "Database");
   ("sqlite", "Database"); ("mongodb", "Database");
   ("express", "API"); ("fastify", "API"); ("koa", "API"); ("hapi", "API");
   ("restify", "API"); ("nest", "API"); ("graphql", "API");
   ("jest", "Testing"); ("mocha", "Testing"); ("jasmine", "Testing");
   ("cypress", "Testing"); ("playwright", "Testing"); ("vitest", "Testing");
   ("chai", "Testing");
   ("docker-compose", "Containerization"); ("kubernetes", "Containerization");
   ("k8s", "Containerization");
   ("multer", "File Storage"); ("aws-sdk", "File Storage");
   ("@aws-sdk/client-s3", "File Storage"); ("firebase-storage", "File Storage");
   ("cloudinary", "File Storage");
   ("socket.io", "Real-time"); ("ws", "Real-time"); ("websocket", "Real-time")].

(** [dep in deps] *)
Definition hasKey (deps : list (string * string)) (dep : string) : bool :=
  bool_decide (dep ∈ deps.*1).

Definition detectFeaturesFromDependencies (deps : list (string * string))
    (s : ProjectStats) : ProjectStats :=
  foldl (λ s kv,
           if hasKey deps kv.1 && negb (includes (features s) kv.2)
           then set_features (λ l, l ++ [kv.2]) s
           else s) s featureDependencies.

(** The two loops, on the list they extend. *)
Definition frameworkStep (l : list string) (kv : string * string) : list string :=
  match frameworkMap !! kv.1 with
  | Some framework =>
      if Str.truthy framework && negb (includes l framework) then l ++ [framework] else l
  | None => l
  end.

Definition featureStep (deps : list (string * string)) (l : list string)
    (kv : string * string) : list string :=
  if hasKey deps kv.1 && negb (includes l kv.2) then l ++ [kv.2] else l.



End Detectors.

(** ** Rules and starter files of a plan ([src/project-planner.ts]) *)

Module PlannerFiles.
Import Planner.

Record ProjectRule : Type := mkRule {
  name : string;
  description : string;
  pattern : string;
  message : string
}.

Definition generateRules (techStack : TechnologyStack) : list ProjectRule :=
  let rules := [] in
  let rules :=
    if includes (languages techStack) "TypeScript"
    then rules ++ [{| name := "typescript-strict";
                      description := "Enforce strict TypeScript checks";
                      pattern := "**/*.ts";
                      message := "Please enable strict mode in tsconfig.json" |}]
    else rules in
  let rules :=
    if includes (frameworks techStack) "React"
    then rules ++ [{| name := "react-hooks";
                      description := "Enforce React hooks rules";
                      pattern := "**/*.{tsx,jsx}";
                      message := "Please follow React hooks rules" |}]
    else rules in
  rules.

(** What [generateStarterFiles] hands to [fs.writeFile]: the manifest with
    its [dependencies] table (the other fields are constants), the compiler
    configuration, the entry points, and the requirements as text. *)
Inductive mainFlavour : Type := FlaskMain | FastAPIMain | PlainMain.

Inductive starter : Type :=
| PackageJson (dependencies : list (string * string))
| TsConfig
| IndexTs (express : bool)
| Requirements (content : string)
| MainPy (flavour : mainFlavour).

Definition starterDependencies (techStack : TechnologyStack) : list (string * string) :=
  let dependencies :=
    [("typescript", "^5.0.0"); ("@types/node", "^20.0.0"); ("ts-node", "^10.9.0")] in
  let dependencies :=
    if includes (frameworks techStack) "React"
    then dependencies ++ [("@types/react", "^18.0.0"); ("@types/react-dom", "^18.0.0")]
    else dependencies in
  let dependencies :=
    if includes (frameworks techStack) "Express"
    then dependencies ++ [("@types/express", "^4.17.0")]
    else dependencies in
  dependencies.

Definition requirementsContent (techStack : TechnologyStack) : string :=
  "# Project dependencies
" +:+
  (if includes (frameworks techStack) "Flask" then "flask>=2.0.0
"
   else if includes (frameworks techStack) "Django" then "django>=4.0.0
"
   else if includes (frameworks techStack) "FastAPI" then "fastapi>=0.95.0
uvicorn>=0.21.0
"
   else "").

(** The writes of [generateStarterFiles], in order, when none fails. *)
Definition generateStarterFiles (projectPath : string) (techStack : TechnologyStack) :
    list (string * starter) :=
  let writes :=
    if includes (languages techStack) "TypeScript" || includes (languages techStack) "JavaScript"
    then [(Path.join projectPath "package.json", PackageJson (starterDependencies techStack))]
    else [] in
  if includes (languages techStack) "TypeScript" then
    writes ++
    [(Path.join projectPath "tsconfig.json", TsConfig);
     (Path.join (Path.join projectPath "src") "index.ts",
      IndexTs (includes (frameworks techStack) "Express"))]
  else if includes (languages techStack) "Python" then
    writes ++
    [(Path.join projectPath "requirements.txt", Requirements (requirementsContent techStack));
     (Path.join projectPath "main.py",
      MainPy (if includes (frameworks techStack) "Flask" then FlaskMain
              else if includes (frameworks techStack) "FastAPI" then FastAPIMain
              else PlainMain))]
  else writes.

(** [files.join('\n')] *)
Fixpoint joinLines (lines : list string) : string :=
  match lines with
  | [] => ""
  | [line] => line
  | line :: rest => line +:+ "
" +:+ joinLines rest
  end.

Definition generateStarterFilesList (techStack : TechnologyStack) : string :=
  let files := [] in
  let files :=
    if includes (languages techStack) "TypeScript"
    then files ++ ["- `tsconfig.json` - TypeScript configuration"]
    else files in
  let files :=
    if includes (frameworks techStack) "React"
    then files ++ ["- `src/App.tsx` - Main React component";
                   "- `src/index.tsx` - Application entry point"]
    else files in
  joinLines files.

End PlannerFiles.

(** ** Coding rules ([src/discovery-service.ts]) *)

Module Rules.
Import Discovery.

Record MCPRuleInfo : Type := mkRuleInfo {
  name : string;
  description : string;
  pattern : option string;
  scope : option string;
  enabled : bool
}.

(** [for (const [key, value] of Object.entries(table))
       if (normalizedTech.includes(key)) return value;
     return undefined] *)
Fixpoint firstIncluded (table : list (string * string)) (normalizedTech : string) :
    option string :=
  match table with
  | [] => None
  | (key, value) :: rest =>
      if Str.includes normalizedTech key then Some value
      else firstIncluded rest normalizedTech
  end.

Definition patterns : list (string * string) :=
  [("javascript", "(?<![;{}])\s*$");
   ("typescript", "(?<![;{}])\s*$");
   ("python", "def\s+([A-Z]|[a-z][a-z0-9]*[A-Z])")].

Definition techToScope : list (string * string) :=
  [("javascript", "js,jsx");
   ("typescript", "ts,tsx");
   ("react", "jsx,tsx");
   ("python", "py");
   ("java", "java");
   ("go", "go");
   ("ruby", "rb");
   ("php", "php");
   ("c#", "cs");
   ("csharp", "cs")].

Section WithRuntime.
Context `{Runtime}.

Definition getDefaultPatternForTech (tech : string) : option string :=
  let normalizedTech := toLowerCase tech in
  firstIncluded patterns normalizedTech.

Definition getScopeForTech (tech : string) : option string :=
  let normalizedTech := toLowerCase tech in
  firstIncluded techToScope normalizedTech.

Definition getDefaultRules (technologies : list string) : list MCPRuleInfo :=
  let defaultRules :=
    [{| name := "descriptive-names";
        description := "Use descriptive variable and function names";
        pattern := None; scope := None;
        enabled := true |}] in
  let defaultRules :=
    if existsb (λ tech, Str.includes (toLowerCase tech) "javascript" ||
                        Str.includes (toLowerCase tech) "typescript") technologies
    then defaultRules ++
         [{| name := "js-semicolons";
             description := "Use semicolons at the end of statements";
             pattern := Some "(?<![;{}])\s*$";
             scope := Some "js,jsx,ts,tsx";
             enabled := true |};
          {| name := "const-first";
             description := "Prefer const over let when variable is not reassigned";
             pattern := None; scope := None;
             enabled := true |}]
    else defaultRules in
  let defaultRules :=
    if existsb (λ tech, Str.includes (toLowerCase tech) "python") technologies
    then defaultRules ++
         [{| name := "py-snake-case";
             description := "Use snake_case for variables and functions";
             pattern := Some "def\s+([A-Z]|[a-z][a-z0-9]*[A-Z])";
             scope := Some "py";
             enabled := true |}]
    else defaultRules in
  defaultRules.

(** One element of the result page: the trimmed texts of its name and of
    its description; the callback of [.each]. *)
Definition addRule (tech : string) (rules : list MCPRuleInfo) (item : string * string) :
    list MCPRuleInfo :=
  let '(name', description') := item in
  if Str.truthy name' && Str.truthy description' &&
     negb (existsb (λ rule, bool_decide (name rule = name')) rules)
  then rules ++
       [{| name := name';
           description := description';
           enabled := true;
           pattern := getDefaultPatternForTech tech;
           scope := getScopeForTech tech |}]
  else rules.

(** [site tech]: the search for [tech], [Rejected] when the request or the
    parsing throws, else the elements [.rule-item, .package-item] of the
    page in document order. *)
Definition searchCursorRules (site : string → response (list (string * string)))
    (technologies : list string) : list MCPRuleInfo :=
  let rules :=
    foldl (λ rules tech,
             match site tech with
             | Rejected => rules
             | Resolved page => foldl (addRule tech) rules page
             end) [] technologies in
  if bool_decide (length rules = 0%nat) then getDefaultRules technologies else rules.

(** [generateRules] of the analyzer. *)
Definition generateRules (site : string → response (list (string * string)))
    (stats : ProjectStats) : list MCPRuleInfo :=
  let technologies := languages stats ++ frameworks stats in
  searchCursorRules site technologies.

End WithRuntime.

End Rules.

(** ** The enhancer's entry point ([src/project-enhancer.ts]) *)

Module EnhanceEntry.


Section Synthesis.
Context `{Runtime}.


End Synthesis.

End EnhanceEntry.

(** ** More sample inputs *)

Module Registry.


End Registry.

(** ** Vocabulary of the statements on discovery *)

Module DiscoveryWords.
Import Discovery.



End DiscoveryWords.

(** ** Vocabulary of the statements on rules *)

Module RuleWords.
Import Rules.

(** Rules with pairwise distinct names, all of them enabled, with a name
    and a description. *)
Definition Sound (rules : list MCPRuleInfo) : Prop :=
  NoDup (name <$> rules) ∧
  Forall (λ rule, enabled rule = true ∧ name rule ≠ "" ∧ description rule ≠ "") rules.

End RuleWords.

(** ** Vocabulary of the statements on the classifier *)

Module PlannerWords.
Import Regex.

(** The labels in the order of the tests. *)
Definition declaredLanguages : list string :=
  ["TypeScript"; "JavaScript"; "Python"; "Java"; "Go"; "Ruby"; "C#"; "PHP"; "Swift";
   "Kotlin"; "Rust"].
Definition declaredFrameworks : list string :=
  ["React"; "Next.js"; "Vue.js"; "Angular"; "Express"; "Django"; "Flask"; "FastAPI";
   "Rails"; "Spring"; "Laravel"; "ASP.NET"; "Svelte"; "Flutter"; "Gatsby"; "Nuxt.js"].
Definition declaredFeatures : list string :=
  ["API"; "Database"; "Authentication"; "Frontend"; "Backend"; "Mobile"; "Testing";
   "Containerization"; "CI/CD"; "File Storage"; "Real-time"; "Analytics"].

(** Every word of the pattern has [word], up to ASCII case, inside. *)
Definition Inside (r : regex) (word : string) : Prop :=
  ∀ w, Matches r w →
       ∃ p v q, w = p ++ v ++ q ∧
                Str.fold_case <$> v = Str.fold_case <$> Str.to_list word.

End PlannerWords.

(** * Properties *)

(** ** The pattern matcher decides the language of the pattern *)

Module RegexFacts.
Import Regex.

Lemma eps_inv (w : list ascii) : Matches Eps w → w = [].
Proof. by inversion 1. Qed.

Lemma chr_inv (c : ascii) (w : list ascii) :
  Matches (Chr c) w → ∃ b, w = [b] ∧ Str.fold_case b = Str.fold_case c.
Proof. inversion 1; subst; eauto. Qed.

Lemma alt_inv (r1 r2 : regex) (w : list ascii) :
  Matches (Alt r1 r2) w → Matches r1 w ∨ Matches r2 w.
Proof. inversion 1; subst; auto. Qed.

Lemma seq_inv (r1 r2 : regex) (w : list ascii) :
  Matches (Seq r1 r2) w → ∃ w1 w2, w = w1 ++ w2 ∧ Matches r1 w1 ∧ Matches r2 w2.
Proof. inversion 1; subst; eauto. Qed.

Lemma nullable_spec (r : regex) : nullable r = true ↔ Matches r [].
Proof.
  induction r as [| |c|r1 IH1 r2 IH2|r1 IH1 r2 IH2|r IH]; simpl.
  - split; [done|]. inversion 1.
  - split; [constructor|done].
  - split; [done|]. by intros (b & ? & _)%chr_inv.
  - rewrite orb_true_iff, IH1, IH2. split.
    + intros [?|?]; [by apply MAltL|by apply MAltR].
    + apply alt_inv.
  - rewrite andb_true_iff, IH1, IH2. split.
    + intros [? ?]. by apply (MSeq r1 r2 [] []).
    + intros (w1 & w2 & Hw & H1 & H2)%seq_inv. symmetry in Hw.
      apply app_eq_nil in Hw as [-> ->]. done.
  - split; [constructor|done].
Qed.

Lemma star_cons_inv (r : regex) (b : ascii) (w : list ascii) :
  Matches (Star r) (b :: w) →
  ∃ w1 w2, w = w1 ++ w2 ∧ Matches r (b :: w1) ∧ Matches (Star r) w2.
Proof.
  intros Hm. remember (Star r) as r' eqn:Hr. remember (b :: w) as bw eqn:Hbw.
  revert w Hbw.
  induction Hm as [| | | | | |r0 w1 w2 H1 _ H2 IH2]; intros u Hbw; try discriminate.
  injection Hr as ->. destruct w1 as [|b' w1]; simpl in Hbw.
  - by apply IH2.
  - injection Hbw as -> <-. by exists w1, w2.
Qed.

Lemma seq_deriv_intro (r1 r2 : regex) (b : ascii) (w : list ascii) :
  (∀ w, Matches (deriv b r1) w → Matches r1 (b :: w)) →
  Matches (Seq (deriv b r1) r2) w → Matches (Seq r1 r2) (b :: w).
Proof.
  intros IH (w1 & w2 & -> & H1 & H2)%seq_inv.
  apply (MSeq r1 r2 (b :: w1)); [by apply IH|done].
Qed.

Lemma deriv_spec (r : regex) (b : ascii) (w : list ascii) :
  Matches (deriv b r) w ↔ Matches r (b :: w).
Proof.
  revert w.
  induction r as [| |c|r1 IH1 r2 IH2|r1 IH1 r2 IH2|r IH]; intros w; simpl.
  - split; inversion 1.
  - split; [inversion 1|]. by intros ?%eps_inv.
  - case_bool_decide as Hc.
    + split.
      * intros ->%eps_inv. by constructor.
      * intros (b' & [= <- ->] & _)%chr_inv. constructor.
    + split; [inversion 1|].
      intros (b' & [= <- ->] & ?)%chr_inv. done.
  - split.
    + intros [?|?]%alt_inv; [apply MAltL; by apply IH1|apply MAltR; by apply IH2].
    + intros [?|?]%alt_inv; [apply MAltL; by apply IH1|apply MAltR; by apply IH2].
  - destruct (nullable r1) eqn:Hn.
    + split.
      * intros [?|?]%alt_inv.
        -- apply seq_deriv_intro; [|done]. intros. by apply IH1.
        -- apply (MSeq r1 r2 []); [by apply nullable_spec|by apply IH2].
      * intros (w1 & w2 & Hw & H1 & H2)%seq_inv.
        destruct w1 as [|b' w1]; simpl in Hw; subst.
        -- apply MAltR. by apply IH2.
        -- injection Hw as -> ->. apply MAltL. constructor; [by apply IH1|done].
    + split.
      * apply seq_deriv_intro. intros. by apply IH1.
      * intros (w1 & w2 & Hw & H1 & H2)%seq_inv.
        destruct w1 as [|b' w1]; simpl in Hw; subst.
        -- apply nullable_spec in H1. congruence.
        -- injection Hw as -> ->. constructor; [by apply IH1|done].
  - split.
    + intros (w1 & w2 & -> & H1 & H2)%seq_inv.
      apply (MStarCons r (b :: w1)); [by apply IH|done].
    + intros (w1 & w2 & -> & H1 & H2)%star_cons_inv.
      constructor; [by apply IH|done].
Qed.

Lemma prefix_match_spec (r : regex) (s : list ascii) :
  prefix_match r s = true ↔ ∃ w rest, s = w ++ rest ∧ Matches r w.
Proof.
  revert r. induction s as [|b s IH]; intros r.
  - change (prefix_match r []) with (nullable r || false).
    rewrite orb_false_r, nullable_spec. split.
    + intros ?. by exists [], [].
    + intros (w & rest & Hs & Hm). symmetry in Hs.
      apply app_eq_nil in Hs as [-> _]. done.
  - change (prefix_match r (b :: s)) with (nullable r || prefix_match (deriv b r) s).
    rewrite orb_true_iff, nullable_spec, IH. split.
    + intros [Hm|(w & rest & -> & Hm)].
      * by exists [], (b :: s).
      * exists (b :: w), rest. split; [done|]. by apply deriv_spec.
    + intros ([|b' w] & rest & Hs & Hm); [by left|].
      injection Hs as <- ->. right. exists w, rest. split; [done|]. by apply deriv_spec.
Qed.

Lemma search_spec (r : regex) (s : list ascii) :
  search r s = true ↔ ∃ before w after, s = before ++ w ++ after ∧ Matches r w.
Proof.
  induction s as [|b s IH].
  - change (search r []) with (prefix_match r [] || false).
    rewrite orb_false_r, prefix_match_spec. split.
    + intros (w & rest & -> & Hm). by exists [], w, rest.
    + intros (before & w & after & Hs & Hm). symmetry in Hs.
      apply app_eq_nil in Hs as [-> Hs]. by exists w, after.
  - change (search r (b :: s)) with (prefix_match r (b :: s) || search r s).
    rewrite orb_true_iff, prefix_match_spec, IH. split.
    + intros [(w & rest & -> & Hm)|(before & w & after & -> & Hm)].
      * by exists [], w, rest.
      * by exists (b :: before), w, after.
    + intros ([|b' before] & w & after & Hs & Hm); simpl in Hs.
      * left. by exists w, after.
      * injection Hs as <- ->. right. by exists before, w, after.
Qed.

(** A literal matches the words that equal it up to ASCII case. *)
Lemma lit_l_spec (p w : list ascii) :
  Matches (lit_l p) w ↔ Str.fold_case <$> w = Str.fold_case <$> p.
Proof.
  revert w. induction p as [|c p IH]; intros w; simpl.
  - split.
    + by intros ->%eps_inv.
    + intros Hw. apply fmap_nil_inv in Hw as ->. constructor.
  - split.
    + intros (w1 & w2 & -> & (b & -> & Hb)%chr_inv & H2)%seq_inv.
      simpl. f_equal; [done|]. by apply IH.
    + destruct w as [|b w]; [done|]. simpl. intros [= Hb Hw].
      apply (MSeq _ _ [b] w); [by constructor|by apply IH].
Qed.

Lemma alts_intro (r : regex) (rs : list regex) (w : list ascii) :
  r ∈ rs → Matches r w → Matches (alts rs) w.
Proof.
  induction rs as [|r' rs IH]; [by intros ?%elem_of_nil|].
  intros [->|Hin]%elem_of_cons Hm; simpl.
  - destruct rs; [done|by apply MAltL].
  - destruct rs as [|r'' rs]; [by apply elem_of_nil in Hin|].
    apply MAltR. by apply IH.
Qed.

End RegexFacts.

(** ** The free-text classifier *)

Module PlannerFacts.
Import Regex Planner.

Lemma elem_of_push_if (x y : string) (cond : bool) (arr : list string) :
  x ∈ push_if cond y arr ↔ x ∈ arr ∨ (cond = true ∧ x = y).
Proof.
  unfold push_if. destruct cond.
  - rewrite elem_of_app, list_elem_of_singleton. intuition.
  - intuition discriminate.
Qed.

(** [test] is truthy exactly when some substring matches the pattern. *)
Lemma test_spec (r : regex) (subject : string) :
  test r subject = true ↔
  ∃ before w after, Str.to_list subject = before ++ w ++ after ∧ Matches r w.
Proof. apply RegexFacts.search_spec. Qed.

(** A subject that contains [word] up to ASCII case passes every pattern
    that has [word] among its alternatives. *)
Lemma test_literal (rs : list regex) (word : string) (subject : string)
    (before w after : list ascii) :
  lit word ∈ rs →
  Str.to_list subject = before ++ w ++ after →
  Str.fold_case <$> w = Str.fold_case <$> Str.to_list word →
  test (alts rs) subject = true.
Proof.
  intros Hin Hs Hw. apply test_spec. exists before, w, after. split; [done|].
  apply (RegexFacts.alts_intro (lit word)); [done|]. by apply RegexFacts.lit_l_spec.
Qed.

Ltac pick_label :=
  unfold detect_languages; rewrite !elem_of_push_if;
  repeat first [ by (right; split; [assumption|reflexivity]) | left ].

(** C5: [JavaScript] is appended exactly when the JavaScript pattern matches
    and the pattern [/typescript|ts/i] does not; "Build a TypeScript React
    app" is classified TypeScript and not JavaScript, "Build a React app"
    is classified JavaScript. *)
Theorem javascript_suppressed_by_typescript :
  (∀ description : string,
     "JavaScript" ∈ languages (analyzeTechStack description) ↔
     test re_javascript description = true ∧
     test re_typescript_keyword description = false) ∧
  ("TypeScript" ∈ languages (analyzeTechStack "Build a TypeScript React app") ∧
   "JavaScript" ∉ languages (analyzeTechStack "Build a TypeScript React app")) ∧
  "JavaScript" ∈ languages (analyzeTechStack "Build a React app").
Proof.
  assert (Hiff : ∀ description : string,
     "JavaScript" ∈ languages (analyzeTechStack description) ↔
     test re_javascript description = true ∧
     test re_typescript_keyword description = false).
  { intros description. simpl. unfold detect_languages.
    rewrite !elem_of_push_if, elem_of_nil, andb_true_iff, negb_true_iff.
    intuition discriminate. }
  split; [exact Hiff|]. split; [split|].
  - vm_compute. apply list_elem_of_here.
  - rewrite Hiff. vm_compute. intros [_ ?]. discriminate.
  - rewrite Hiff. vm_compute. done.
Qed.

(** C10: a description that contains [django] in any letter case is
    classified both Python and Go: [/go|golang/i] matches the [go] inside. *)
Theorem django_is_python_and_go (description : string) (before word after : list ascii) :
  Str.to_list description = before ++ word ++ after →
  Str.fold_case <$> word = Str.to_list "django" →
  "Python" ∈ languages (analyzeTechStack description) ∧
  "Go" ∈ languages (analyzeTechStack description).
Proof.
  intros Hd Hw. split; simpl.
  - assert (test re_python description = true).
    { eapply (test_literal _ "django"); [|exact Hd|exact Hw].
      unfold re_python. set_solver. }
    pick_label.
  - destruct word as [|c1 [|c2 [|c3 [|c4 [|c5 [|c6 [|c7 word]]]]]]]; try discriminate.
    injection Hw as _ _ _ _ H5 H6.
    assert (test re_go description = true).
    { eapply (test_literal _ "go" _ (before ++ [c1; c2; c3; c4]) [c5; c6] after).
      - unfold re_go. set_solver.
      - rewrite Hd, <-!app_assoc. done.
      - simpl. by rewrite H5, H6. }
    pick_label.
Qed.

Lemma django_is_python_and_go_witness :
  "Python" ∈ languages (analyzeTechStack "A DJango REST service") ∧
  "Go" ∈ languages (analyzeTechStack "A DJango REST service").
Proof.
  apply (django_is_python_and_go "A DJango REST service"
           (Str.to_list "A ") (Str.to_list "DJango") (Str.to_list " REST service"));
    reflexivity.
Defined.

End PlannerFacts.

(** ** Paths *)

Module PathFacts.
Import Path.

Lemma to_list_app (s t : string) : Str.to_list (s +:+ t) = Str.to_list s ++ Str.to_list t.
Proof.
  unfold Str.to_list, String.app. induction s as [|c s IH]; simpl; [done|]. by rewrite IH.
Qed.

Lemma of_list_to_list (s : string) : Str.of_list (Str.to_list s) = s.
Proof. apply string_of_list_ascii_of_string. Qed.

(** Once the extension is delimited and a byte before its dot has been
    seen, the rest of the name does not change it. *)
Lemma extname_loop_settled (rest : list ascii) (i : Z) (st : scan) :
  startDot st ≠ (-1)%Z → end_ st ≠ (-1)%Z → matchedSlash st = false →
  preDotState st ≠ 0%Z →
  let st' := extname_loop rest i st in
  startDot st' = startDot st ∧ end_ st' = end_ st ∧ preDotState st' ≠ 0%Z.
Proof.
  revert i st. induction rest as [|c rest IH]; intros i st Hdot Hend Hslash Hpre; [done|].
  cbn [extname_loop]. rewrite Hslash. cbn [negb].
  case_bool_decide; [done|].
  destruct (Z.eqb_spec (end_ st) (-1)); [done|].
  case_bool_decide.
  - destruct (Z.eqb_spec (startDot st) (-1)); [done|].
    destruct (Z.eqb_spec (preDotState st) 1); cbn [negb].
    + by apply IH.
    + destruct (IH (i - 1)%Z (mkScan (startDot st) (startPart st) (end_ st) (matchedSlash st) 1))
        as (? & ? & ?); done.
  - destruct (Z.eqb_spec (startDot st) (-1)); [done|]. cbn [negb].
    destruct (IH (i - 1)%Z (mkScan (startDot st) (startPart st) (end_ st) (matchedSlash st) (-1)))
      as (? & ? & ?); done.
Qed.

Lemma loop_cons (c : ascii) (rest : list ascii) (i : Z) (st : scan) :
  extname_loop (c :: rest) i st =
  if bool_decide (c = "/"%char) then
    if negb (matchedSlash st) then
      mkScan (startDot st) (i + 1) (end_ st) (matchedSlash st) (preDotState st)
    else extname_loop rest (i - 1) st
  else
    let st :=
      if (end_ st =? -1)%Z
      then mkScan (startDot st) (startPart st) (i + 1) false (preDotState st)
      else st in
    let st :=
      if bool_decide (c = "."%char) then
        if (startDot st =? -1)%Z
        then mkScan i (startPart st) (end_ st) (matchedSlash st) (preDotState st)
        else if negb (preDotState st =? 1)%Z
        then mkScan (startDot st) (startPart st) (end_ st) (matchedSlash st) 1
        else st
      else if negb (startDot st =? -1)%Z
      then mkScan (startDot st) (startPart st) (end_ st) (matchedSlash st) (-1)
      else st in
    extname_loop rest (i - 1) st.
Proof. reflexivity. Qed.

Ltac ext_bool :=
  repeat match goal with
         | |- context [bool_decide (?a = ?b)] =>
             first [ rewrite (bool_decide_eq_false_2 (a = b)) by discriminate
                   | rewrite (bool_decide_eq_true_2 (a = b)) by reflexivity ]
         end.

Ltac ext_eqb :=
  repeat match goal with
         | |- context [(?a =? ?b)%Z] =>
             first [ replace (a =? b)%Z with true by (symmetry; apply Z.eqb_eq; lia)
                   | replace (a =? b)%Z with false by (symmetry; apply Z.eqb_neq; lia) ]
         end.

Ltac ext_step :=
  rewrite loop_cons; ext_bool;
  cbn [end_ startDot startPart matchedSlash preDotState negb]; ext_eqb;
  cbv iota zeta; cbn [end_ startDot startPart matchedSlash preDotState negb]; ext_eqb;
  cbv iota; cbn [end_ startDot startPart matchedSlash preDotState negb].

Lemma loop_js (rest : list ascii) (i : Z) :
  (3 ≤ i)%Z →
  extname_loop ("s" :: "j" :: "." :: "_" :: rest)%char i (mkScan (-1) 0 (-1) true 0) =
  extname_loop rest (i - 4) (mkScan (i - 2) 0 (i + 1) false (-1)).
Proof.
  intros Hi. do 4 ext_step.
  by replace (i - 1 - 1 - 1 - 1)%Z with (i - 4)%Z by lia;
     replace (i - 1 - 1)%Z with (i - 2)%Z by lia.
Qed.

Lemma extname_underscore_js (s : string) : extname (s +:+ "_.js") = ".js".
Proof.
  unfold extname. rewrite to_list_app, rev_app_distr, length_app.
  change (Str.to_list "_.js") with ["_"; "."; "j"; "s"]%char.
  change (rev ["_"; "."; "j"; "s"]%char ++ rev (Str.to_list s))
    with ("s" :: "j" :: "." :: "_" :: rev (Str.to_list s))%char.
  change (length ["_"; "."; "j"; "s"]%char) with 4%nat.
  set (n := length (Str.to_list s)).
  rewrite loop_js by lia.
  set (i := (Z.of_nat (n + 4) - 1)%Z).
  destruct (extname_loop_settled (rev (Str.to_list s)) (i - 4)
              (mkScan (i - 2) 0 (i + 1) false (-1))) as (Hdot & Hend & Hpre);
    [simpl; lia| simpl; lia| done | done |].
  cbv zeta in Hdot, Hend, Hpre. cbn [startDot end_ preDotState] in Hdot, Hend.
  rewrite Hdot, Hend.
  replace (i - 2 =? -1)%Z with false by (symmetry; apply Z.eqb_neq; lia).
  replace (i + 1 =? -1)%Z with false by (symmetry; apply Z.eqb_neq; lia).
  replace (i - 2 =? i + 1 - 1)%Z with false by (symmetry; apply Z.eqb_neq; lia).
  apply Z.eqb_neq in Hpre. rewrite Hpre, andb_false_r. cbn [orb andb].
  replace (Z.to_nat (i + 1 - (i - 2))) with 3%nat by lia.
  replace (Z.to_nat (i - 2)) with (n + 1)%nat by lia.
  change ["_"; "."; "j"; "s"]%char with (["_"]%char ++ ["."; "j"; "s"]%char).
  rewrite app_assoc, drop_app_length'; [reflexivity|]. rewrite length_app. reflexivity.
Qed.

End PathFacts.

(** ** The walks *)

Module WalkFacts.

(** Induction on directory trees, with the hypothesis for every
    subdirectory of a listing. *)
Lemma dir_ind' (P : dir → Prop) :
  (∀ error, P (Unreadable error)) →
  (∀ entries,
     Forall (λ e, match e with Dir _ sub => P sub | _ => True end) entries →
     P (Listing entries)) →
  ∀ d, P d.
Proof.
  intros Hu Hl. fix IH 1. intros [entries|error]; [|apply Hu].
  apply Hl. induction entries as [|e entries IHes]; constructor; [|exact IHes].
  destruct e as [| name sub|]; [exact I|apply IH|exact I].
Qed.

Section Monad.
Context {A B : Type}.

Lemma bind_run (m : M A) (f : A → M B) (env : Env) :
  (m ≫= f) env =
  match m env with
  | (Returned a, env') => f a env'
  | (Thrown e, env') => (Thrown e, env')
  end.
Proof. reflexivity. Qed.

Lemma preserves_bind (I : ProjectStats → Prop) (m : M A) (f : A → M B) :
  preserves I m → (∀ a, preserves I (f a)) → preserves I (m ≫= f).
Proof.
  intros Hm Hf env HI. rewrite bind_run. specialize (Hm env HI).
  destruct (m env) as [[a|e] env']; simpl in *; [by apply Hf|done].
Qed.

Lemma preserves_try_catch (I : ProjectStats → Prop) (m : M A) (h : NodeError → M A) :
  preserves I m → (∀ e, preserves I (h e)) → preserves I (try_catch m h).
Proof.
  intros Hm Hh env HI. unfold try_catch. specialize (Hm env HI).
  destruct (m env) as [[a|e] env']; simpl in *; [done|by apply Hh].
Qed.

Lemma returns_try_catch (m : M A) (h : NodeError → M A) :
  (∀ e, returns (h e)) → returns (try_catch m h).
Proof.
  intros Hh env. unfold try_catch.
  destruct (m env) as [[a|e] env']; [by eexists _, _|apply Hh].
Qed.

End Monad.

Lemma preserves_ret (I : ProjectStats → Prop) {A} (a : A) : preserves I (mret a : M A).
Proof. by intros env HI. Qed.

Lemma preserves_throw (I : ProjectStats → Prop) {A} (e : NodeError) :
  preserves I (throw e : M A).
Proof. by intros env HI. Qed.

Lemma preserves_console_error (I : ProjectStats → Prop) (text : string) :
  preserves I (console_error text).
Proof. by intros env HI. Qed.

Lemma preserves_update_stats (I : ProjectStats → Prop) (f : ProjectStats → ProjectStats) :
  (∀ s, I s → I (f s)) → preserves I (update_stats f).
Proof. intros Hf env HI. by apply Hf. Qed.

(** *** No duplicates *)

Lemma NoDup_snoc_fresh (x : string) (arr : list string) :
  NoDup arr → includes arr x = false → NoDup (arr ++ [x]).
Proof.
  unfold includes. intros Hnd Hx%bool_decide_eq_false.
  apply NoDup_app. split_and!; [done| |apply NoDup_singleton].
  intros y Hy ->%list_elem_of_singleton. done.
Qed.

Lemma NoDup_push_new (x : string) (arr : list string) :
  NoDup arr → NoDup (push_new x arr).
Proof.
  intros Hnd. unfold push_new. destruct (includes arr x) eqn:Hx; [done|].
  by apply NoDup_snoc_fresh.
Qed.

Lemma NoDup_push_new_if (cond : bool) (x : string) (arr : list string) :
  NoDup arr → NoDup (push_new_if cond x arr).
Proof. destruct cond; simpl; auto using NoDup_push_new. Qed.

Lemma NoDup_foldl_push (A : Type) (f : list string → A → list string)
    (items : list A) (arr : list string) :
  (∀ acc a, NoDup acc → NoDup (f acc a)) → NoDup arr → NoDup (foldl f arr items).
Proof.
  intros Hf. revert arr. induction items as [|a items IH]; simpl; auto.
Qed.

Lemma NoDup_set_of (arr : list string) : NoDup (set_of arr).
Proof.
  unfold set_of. apply NoDup_foldl_push; [|constructor].
  intros acc a. apply NoDup_push_new.
Qed.

Lemma elem_of_set_of (x : string) (arr : list string) : x ∈ set_of arr ↔ x ∈ arr.
Proof.
  unfold set_of.
  assert (Hgen : ∀ acc, x ∈ foldl (λ acc x, push_new x acc) acc arr ↔ x ∈ acc ∨ x ∈ arr).
  { induction arr as [|a arr IH]; intros acc; simpl.
    - rewrite elem_of_nil. tauto.
    - rewrite IH, elem_of_cons. unfold push_new, includes.
      case_bool_decide; [|rewrite elem_of_app, list_elem_of_singleton; tauto].
      split; [tauto|]. intros [?|[->|?]]; auto. }
  rewrite Hgen, elem_of_nil. tauto.
Qed.

Lemma NoDup_push_branch (cond : bool) (x : string) (arr rest : list string) :
  NoDup arr → NoDup rest →
  NoDup (if cond && negb (includes arr x) then arr ++ [x] else rest).
Proof.
  intros Harr Hrest. destruct cond, (includes arr x) eqn:Hx; simpl; [done| |done..].
  by apply NoDup_snoc_fresh.
Qed.

Lemma NoDup_detectLanguageInline (ext : string) (langs : list string) :
  NoDup langs → NoDup (detectLanguageInline ext langs).
Proof.
  intros Hnd. unfold detectLanguageInline.
  repeat (apply NoDup_push_branch; [done|]). done.
Qed.

Lemma NoDup_detectLanguageFromExtension (ext : string) (s : ProjectStats) :
  NoDup (languages s) → NoDup (languages (detectLanguageFromExtension ext s)).
Proof.
  intros Hnd. unfold detectLanguageFromExtension.
  destruct (languageMap !! ext) as [language|]; [|done].
  destruct (Str.truthy language); [|done]. cbn [andb].
  destruct (includes (languages s) language) eqn:Hin; [done|].
  by apply NoDup_snoc_fresh.
Qed.




Section WithRuntime.
Context `{Runtime}.

Lemma Unique_fromPackageDeps (deps : list (string * bool)) (s : ProjectStats) :
  Unique s → Unique (fromPackageDeps deps s).
Proof.
  intros (Hl & Hf & Hd). unfold fromPackageDeps, Unique; simpl. split_and!.
  - done.
  - repeat apply NoDup_push_new_if. done.
  - apply NoDup_foldl_push; [|done]. intros. by apply NoDup_push_new.
Qed.

Lemma Unique_fromRequirements (reqs : list string) (s : ProjectStats) :
  Unique s → Unique (fromRequirements reqs s).
Proof.
  intros (Hl & Hf & Hd). unfold fromRequirements, Unique; simpl. split_and!.
  - done.
  - repeat apply NoDup_push_new_if. done.
  - apply NoDup_foldl_push; [|done]. intros acc req ?.
    destruct (Str.truthy req); [by apply NoDup_push_new|done].
Qed.

Lemma Unique_specialFile (name : string) (content : option string) (s : ProjectStats) :
  Unique s → Unique (specialFile name content s).
Proof.
  intros HU. unfold specialFile.
  repeat match goal with
         | |- Unique (if ?c then _ else _) => destruct c
         end.
  - destruct (content ≫= packageDeps); [by apply Unique_fromPackageDeps|done].
  - destruct content; [by apply Unique_fromRequirements|done].
  - destruct HU as (Hl & Hf & Hd).
    destruct content; unfold Unique; simpl; split_and!;
      auto using NoDup_push_new, NoDup_push_new_if.
  - destruct HU as (Hl & Hf & Hd).
    destruct content; unfold Unique; simpl; split_and!;
      auto using NoDup_push_new, NoDup_push_new_if.
  - done.
  - done.
  - done.
Qed.

Lemma Unique_scanFile (name : string) (content : option string) (s : ProjectStats) :
  Unique s → Unique (scanFile name content s).
Proof.
  intros (Hl & Hf & Hd). unfold scanFile. apply Unique_specialFile.
  destruct (Str.truthy _); [|done].
  unfold Unique; simpl. split_and!; [by apply NoDup_detectLanguageInline|done..].
Qed.

Lemma preserves_scanDirEntries (I : ProjectStats → Prop)
    (recurse : dir → string → M unit) (dirPath : string) (entries : list entry) :
  (∀ name content s, I s → I (scanFile name content s)) →
  Forall (λ e, match e with
               | Dir _ sub => ∀ path, preserves I (recurse sub path)
               | _ => True
               end) entries →
  preserves I (scanDirEntries recurse dirPath entries).
Proof.
  intros Hfile. induction 1 as [|e entries He _ IH]; simpl.
  - apply preserves_ret.
  - destruct e as [name content|name sub|name].
    + apply preserves_bind; [|done]. apply preserves_update_stats. auto.
    + destruct (ignoredDirectory name); [done|].
      apply preserves_bind; [apply He|done].
    + done.
Qed.

Lemma preserves_scanDir (I : ProjectStats → Prop) (root : dir) (dirPath : string) :
  (∀ name content s, I s → I (scanFile name content s)) →
  preserves I (scanDir root dirPath).
Proof.
  intros Hfile. revert dirPath.
  induction root as [error|entries IH] using dir_ind'; intros dirPath; simpl.
  - apply preserves_try_catch; [apply preserves_throw|].
    intros e. apply preserves_console_error.
  - apply preserves_try_catch; [|intros e; apply preserves_console_error].
    apply preserves_scanDirEntries; [done|].
    eapply Forall_impl; [exact IH|]. intros [| |]; auto.
Qed.

Lemma returns_scanDir (root : dir) (dirPath : string) : returns (scanDir root dirPath).
Proof.
  destruct root; simpl; apply returns_try_catch; intros e env;
    by eexists tt, _.
Qed.

(** C8: a completed scan has no duplicate among its languages, its
    frameworks, its dependencies or its features; [scanProject] always
    completes. *)
Theorem scanProject_no_duplicates (root : dir) (projectPath : string) (env : Env) :
  ∃ s env',
    scanProject root projectPath env = (Returned s, env') ∧
    NoDup (languages s) ∧ NoDup (frameworks s) ∧
    NoDup (dependencies s) ∧ NoDup (features s).
Proof.
  unfold scanProject.
  pose proof (preserves_scanDir Unique root projectPath Unique_scanFile
                {| stats := emptyStats; console := console env |}) as HU.
  destruct (returns_scanDir root projectPath
              {| stats := emptyStats; console := console env |}) as ([] & env' & Hrun).
  rewrite Hrun in HU |- *. simpl in HU.
  destruct HU as (Hl & Hf & Hd); [repeat split; constructor|].
  eexists _, _. split; [done|]. simpl. split_and!; auto using NoDup_set_of.
Qed.

(** *** Ignored directories *)

Lemma scanProjectDirectory_eq (root : dir) (projectPath : string) (currentDepth fileCount : N) :
  scanProjectDirectory root projectPath currentDepth fileCount =
  if (MAX_SCAN_DEPTH <=? currentDepth) || (MAX_FILES <=? fileCount) then mret tt
  else
    try_catch
      match root with
      | Unreadable error => throw error
      | Listing entries =>
          scanEntries
            (λ sub fullPath count, scanProjectDirectory sub fullPath (currentDepth + 1) count)
            projectPath entries fileCount
      end
      (onScanError projectPath).
Proof. by destruct root. Qed.

Lemma scanDir_eq (root : dir) (dirPath : string) :
  scanDir root dirPath =
  try_catch
    match root with
    | Unreadable error => throw error
    | Listing entries => scanDirEntries scanDir dirPath entries
    end
    (λ error,
       console_error ("Error scanning directory " +:+ dirPath +:+ ": " +:+ errorToString error)).
Proof. by destruct root. Qed.

(** Replacing subdirectories by ones on which the recursive call agrees
    does not change the loop; ignored directories may be replaced freely. *)
Lemma scanEntries_map_subdir (rec1 rec2 : dir → string → N → M unit)
    (f : string → dir → dir) (projectPath : string) (entries : list entry) :
  Forall (λ e, match e with
               | Dir name sub =>
                   ignoredDirectory name = false →
                   ∀ path count env, rec1 sub path count env = rec2 (f name sub) path count env
               | _ => True
               end) entries →
  ∀ fileCount env,
    scanEntries rec1 projectPath entries fileCount env =
    scanEntries rec2 projectPath (map_subdir f <$> entries) fileCount env.
Proof.
  induction 1 as [|e entries He _ IH]; intros fileCount env; [done|].
  destruct e as [name content|name sub|name]; simpl.
  - rewrite !bind_run. destruct (Str.truthy _); simpl; apply IH.
  - destruct (ignoredDirectory name) eqn:Hign; [apply IH|].
    rewrite !bind_run, (He eq_refl).
    destruct (rec2 _ _ _ _) as [[[]|e] env']; [apply IH|done].
  - apply IH.
Qed.

Lemma scanDirEntries_map_subdir (rec1 rec2 : dir → string → M unit)
    (f : string → dir → dir) (dirPath : string) (entries : list entry) :
  Forall (λ e, match e with
               | Dir name sub =>
                   ignoredDirectory name = false →
                   ∀ path env, rec1 sub path env = rec2 (f name sub) path env
               | _ => True
               end) entries →
  ∀ env,
    scanDirEntries rec1 dirPath entries env =
    scanDirEntries rec2 dirPath (map_subdir f <$> entries) env.
Proof.
  induction 1 as [|e entries He _ IH]; intros env; [done|].
  destruct e as [name content|name sub|name]; simpl.
  - rewrite !bind_run. simpl. apply IH.
  - destruct (ignoredDirectory name) eqn:Hign; [apply IH|].
    rewrite !bind_run, (He eq_refl).
    destruct (rec2 _ _ _) as [[[]|e] env']; [apply IH|done].
  - apply IH.
Qed.

Lemma scanProjectDirectory_prune (root : dir) (projectPath : string)
    (currentDepth fileCount : N) (env : Env) :
  scanProjectDirectory root projectPath currentDepth fileCount env =
  scanProjectDirectory (prune root) projectPath currentDepth fileCount env.
Proof.
  revert projectPath currentDepth fileCount env.
  induction root as [error|entries IH] using dir_ind'; intros; [done|].
  rewrite !scanProjectDirectory_eq. destruct (_ || _); [done|].
  unfold try_catch. simpl.
  rewrite <-(scanEntries_map_subdir
               (λ sub fullPath count, scanProjectDirectory sub fullPath (currentDepth + 1) count));
    [done|].
  eapply Forall_impl; [exact IH|]. intros [|name sub|]; simpl; [done| |done].
  intros Hsub ->. intros. apply Hsub.
Qed.

Lemma scanDir_prune (root : dir) (dirPath : string) (env : Env) :
  scanDir root dirPath env = scanDir (prune root) dirPath env.
Proof.
  revert dirPath env.
  induction root as [error|entries IH] using dir_ind'; intros; [done|].
  rewrite !scanDir_eq. unfold try_catch. simpl.
  rewrite <-(scanDirEntries_map_subdir scanDir); [done|].
  eapply Forall_impl; [exact IH|]. intros [|name sub|]; simpl; [done| |done].
  intros Hsub ->. intros. apply Hsub.
Qed.

(** C6: neither walk enters a directory named in the ignore set: the
    result is that of the tree with those directories emptied; a root that
    holds only [node_modules], whatever is inside, scans as an empty
    project. *)
Theorem ignored_directories_never_entered (root : dir) (projectPath : string)
    (currentDepth fileCount : N) (env : Env) :
  scanProjectDirectory root projectPath currentDepth fileCount env =
    scanProjectDirectory (prune root) projectPath currentDepth fileCount env ∧
  scanProject root projectPath env = scanProject (prune root) projectPath env ∧
  (∀ inside : dir,
     scanProjectDirectory (Listing [Dir "node_modules" inside]) projectPath 0 0 env =
       (Returned tt, env) ∧
     scanProject (Listing [Dir "node_modules" inside]) projectPath env =
       (Returned emptyStats, env)).
Proof.
  split_and!.
  - apply scanProjectDirectory_prune.
  - unfold scanProject. by rewrite scanDir_prune.
  - intros inside. by destruct env.
Qed.

(** *** The depth bound *)

(** No directory [MAX_SCAN_DEPTH] or more levels below the start of the walk
    is read: the walk is that of the tree cut at that depth. *)
Lemma scanProjectDirectory_truncate (levels : nat) (root : dir) (projectPath : string)
    (currentDepth fileCount : N) (env : Env) :
  MAX_SCAN_DEPTH - currentDepth ≤ N.of_nat levels →
  scanProjectDirectory root projectPath currentDepth fileCount env =
  scanProjectDirectory (truncate levels root) projectPath currentDepth fileCount env.
Proof.
  revert levels projectPath currentDepth fileCount env.
  induction root as [error|entries IH] using dir_ind'; intros levels ? ? ? ? Hlevels.
  - rewrite !scanProjectDirectory_eq.
    destruct (MAX_SCAN_DEPTH <=? currentDepth) eqn:Hdepth; [done|].
    apply N.leb_gt in Hdepth. destruct levels; [lia|done].
  - rewrite !scanProjectDirectory_eq.
    destruct (MAX_SCAN_DEPTH <=? currentDepth) eqn:Hdepth; [done|].
    apply N.leb_gt in Hdepth. destruct levels as [|levels]; [lia|].
    destruct (MAX_FILES <=? fileCount); [done|].
    unfold try_catch. simpl.
    rewrite <-(scanEntries_map_subdir
                 (λ sub fullPath count, scanProjectDirectory sub fullPath (currentDepth + 1) count));
      [done|].
    eapply Forall_impl; [exact IH|]. intros [|name sub|]; simpl; [done| |done].
    intros Hsub _. intros. apply Hsub. lia.
Qed.

(** *** The file budget *)

Lemma countOf_count_ext (ext : string) (env : Env) :
  countOf ext {| stats := set_fileTypes (count_ext ext) (stats env); console := console env |} =
  countOf ext env + 1.
Proof. unfold countOf, count_ext. simpl. by rewrite lookup_insert_eq. Qed.

(** A listing of files that share an extension is counted in full, whatever
    its length and whatever [fileCount] was on entry to the loop. *)
Lemma scanEntries_files (recurse : dir → string → N → M unit) (projectPath ext : string)
    (files : list entry) (fileCount : N) (env : Env) :
  Str.truthy ext = true →
  allFilesOf ext files = true →
  ∃ env',
    scanEntries recurse projectPath files fileCount env = (Returned tt, env') ∧
    countOf ext env' = countOf ext env + N.of_nat (length files) ∧
    console env' = console env.
Proof.
  intros Hext. revert fileCount env.
  induction files as [|e files IH]; intros fileCount env Hall; simpl in *.
  - exists env. split_and!; [done|lia|done].
  - apply andb_true_iff in Hall as [He Hall].
    destruct e as [name content| |]; [|done..].
    apply bool_decide_eq_true in He. rewrite bind_run, He, Hext. simpl.
    destruct (IH (fileCount + 1)
                {| stats := set_fileTypes (count_ext ext) (stats env); console := console env |}
                Hall) as (env' & Hrun & Hcount & Hconsole).
    exists env'. split_and!; [done| |done].
    rewrite Hcount, countOf_count_ext. lia.
Qed.

(** Sibling directories all receive the [fileCount] of their parent, so each
    of them is walked in full. *)
Lemma siblings_walked_in_full (ext : string) (files : list entry) (names : list string)
    (projectPath : string) (fileCount : N) (env : Env) :
  Str.truthy ext = true →
  allFilesOf ext files = true →
  Forall (λ name, ignoredDirectory name = false) names →
  fileCount < MAX_FILES →
  ∃ env',
    scanEntries (λ sub fullPath count, scanProjectDirectory sub fullPath 1 count)
      projectPath ((λ name, Dir name (Listing files)) <$> names) fileCount env =
      (Returned tt, env') ∧
    countOf ext env' = countOf ext env + N.of_nat (length names) * N.of_nat (length files) ∧
    console env' = console env.
Proof.
  intros Hext Hall Hnames Hcount. revert env.
  induction Hnames as [|name names Hname _ IH]; intros env.
  - exists env. split_and!; [done|simpl; lia|done].
  - cbn [fmap list_fmap scanEntries]. rewrite Hname, bind_run, scanProjectDirectory_eq.
    replace (MAX_SCAN_DEPTH <=? 1) with false by done.
    apply N.leb_gt in Hcount as ->. unfold try_catch at 1. cbn [orb entry_name].
    destruct (scanEntries_files
                (λ sub fullPath count, scanProjectDirectory sub fullPath (1 + 1) count)
                (Path.join projectPath name) ext files fileCount env Hext Hall)
      as (env1 & -> & Hcount1 & Hconsole1).
    destruct (IH env1) as (env' & Hrun & Hcount' & Hconsole').
    exists env'. split_and!; [done| |congruence].
    rewrite Hcount', Hcount1. simpl length. lia.
Qed.

(** *** Read errors *)



Lemma returns_scanProject (root : dir) (projectPath : string) :
  returns (scanProject root projectPath).
Proof.
  intros env. unfold scanProject.
  destruct (returns_scanDir root projectPath
              {| stats := emptyStats; console := console env |}) as ([] & env' & ->).
  by eexists _, _.
Qed.


End WithRuntime.

(** *** Concrete runs *)

Lemma length_manyFiles (count : N) : N.of_nat (length (Sample.manyFiles count)) = count.
Proof. unfold Sample.manyFiles. rewrite length_fmap, length_seq. lia. Qed.

Lemma allFilesOf_manyFiles (count : N) :
  allFilesOf (H:=Sample.runtime) ".js" (Sample.manyFiles count) = true.
Proof.
  unfold Sample.manyFiles. generalize (seq 0 (N.to_nat count)). intros indices.
  induction indices as [|i indices IH]; [reflexivity|].
  cbn [fmap list_fmap allFilesOf forallb]. apply andb_true_iff. split; [|exact IH].
  apply bool_decide_eq_true. cbn [toLowerCase Sample.runtime].
  rewrite PathFacts.extname_underscore_js. reflexivity.
Qed.

(** C1, where the code departs from it: the file budget is not shared
    between sibling directories.  With three directories of [MAX_FILES]
    files each, [scanProjectDirectory] counts all 30000 files; and
    [scanProject], the walk behind [analyze], has neither bound: it counts a
    file eleven directories down, which [scanProjectDirectory] leaves out. *)
Theorem file_budget_not_shared_between_siblings :
  (∃ env',
     scanProjectDirectory (H:=Sample.runtime) Sample.threeFullDirectories "/project" 0 0
       Sample.start = (Returned tt, env') ∧
     fileTypes (stats env') !! ".js" = Some 30000) ∧
  (∃ s env',
     scanProject (H:=Sample.runtime) Sample.deepFile "/project" Sample.start =
       (Returned s, env') ∧
     fileTypes s !! ".py" = Some 1) ∧
  scanProjectDirectory (H:=Sample.runtime) Sample.deepFile "/project" 0 0 Sample.start =
    (Returned tt, Sample.start).
Proof.
  split_and!.
  - pose proof (allFilesOf_manyFiles MAX_FILES) as Hall.
    pose proof (length_manyFiles MAX_FILES) as Hlen.
    unfold Sample.threeFullDirectories.
    generalize dependent (Sample.manyFiles MAX_FILES). intros files Hall Hlen.
    destruct (siblings_walked_in_full (H:=Sample.runtime) ".js" files ["a"; "b"; "c"]
                "/project" 0 Sample.start eq_refl Hall)
      as (env' & Hrun & Hcount & _); [repeat constructor|reflexivity|].
    exists env'. split.
    + rewrite scanProjectDirectory_eq.
      change ((MAX_SCAN_DEPTH <=? 0) || (MAX_FILES <=? 0)) with false. cbv iota.
      unfold try_catch. change (0 + 1) with 1. rewrite Hrun. reflexivity.
    + rewrite Hlen in Hcount. unfold countOf in Hcount.
      destruct (fileTypes (stats env') !! ".js") as [n|]; simpl in Hcount.
      * f_equal. rewrite Hcount. reflexivity.
      * discriminate.
  - eexists _, _. split; vm_compute; reflexivity.
  - vm_compute. reflexivity.
Qed.



(** Two container files push [Containerization] twice during the walk; the
    scan returns it once. *)
Lemma features_deduplicated_at_the_end :
  let project := Listing [File "Dockerfile" None; File "docker-compose.yml" None] in
  features (stats (scanDir (H:=Sample.runtime) project "/project" Sample.start).2) =
    ["Containerization"; "Containerization"] ∧
  ∃ s env',
    scanProject (H:=Sample.runtime) project "/project" Sample.start = (Returned s, env') ∧
    features s = ["Containerization"].
Proof. split; [reflexivity|]. eexists _, _. split; reflexivity. Qed.

End WalkFacts.

(** ** Configurations *)

Module ConfigFacts.
Import Enhancer.



(** The loop of [generateEnhancedMCPConfig]: the entry already there wins. *)
Lemma foldl_add_missing (items : list (string * Discovery.MCPServerInfo))
    (servers : gmap string ServerEntry) (name : string) :
  foldl (λ acc kv,
           match acc !! kv.1 with
           | None => <[kv.1 := entryOf kv.2]> acc
           | Some _ => acc
           end) servers items !! name =
  match servers !! name with
  | Some entry => Some entry
  | None => entryOf <$> (list_to_map items : gmap string Discovery.MCPServerInfo) !! name
  end.
Proof.
  revert servers. induction items as [|[key info] items IH]; intros servers.
  - simpl. rewrite lookup_empty. by destruct (servers !! name).
  - cbn [foldl fst snd]. rewrite IH.
    change (list_to_map ((key, info) :: items) : gmap string Discovery.MCPServerInfo)
      with (<[key := info]> (list_to_map items : gmap string Discovery.MCPServerInfo)).
    destruct (decide (key = name)) as [->|Hne].
    + rewrite lookup_insert_eq. destruct (servers !! name) as [entry|] eqn:Hname; simpl.
      * by rewrite Hname.
      * by rewrite lookup_insert_eq.
    + rewrite (lookup_insert_ne (list_to_map items)) by done.
      destruct (servers !! key); [done|]. by rewrite lookup_insert_ne.
Qed.

Lemma addMissingServers_lookup (discovered : gmap string Discovery.MCPServerInfo)
    (servers : gmap string ServerEntry) (name : string) :
  addMissingServers discovered servers !! name =
  match servers !! name with
  | Some entry => Some entry
  | None => entryOf <$> discovered !! name
  end.
Proof.
  unfold addMissingServers, entries. by rewrite foldl_add_missing, list_to_map_to_list.
Qed.

Lemma addMissingServers_union (discovered : gmap string Discovery.MCPServerInfo)
    (servers : gmap string ServerEntry) :
  addMissingServers discovered servers = servers ∪ (entryOf <$> discovered).
Proof.
  apply map_eq. intros name.
  rewrite addMissingServers_lookup, lookup_union, lookup_fmap.
  destruct (servers !! name), (discovered !! name); done.
Qed.

(** The loop of [generateMCPConfig]: every discovered server is written. *)
Lemma foldl_insert_lookup (items : list (string * Discovery.MCPServerInfo))
    (servers : gmap string ServerEntry) (name : string) :
  NoDup items.*1 →
  foldl (λ acc kv, <[kv.1 := entryOf kv.2]> acc) servers items !! name =
  match (list_to_map items : gmap string Discovery.MCPServerInfo) !! name with
  | Some info => Some (entryOf info)
  | None => servers !! name
  end.
Proof.
  revert servers. induction items as [|[key info] items IH]; intros servers Hnd.
  - simpl. by rewrite lookup_empty.
  - apply NoDup_cons in Hnd as [Hkey Hnd]. cbn [foldl fst snd]. rewrite IH by done.
    change (list_to_map ((key, info) :: items) : gmap string Discovery.MCPServerInfo)
      with (<[key := info]> (list_to_map items : gmap string Discovery.MCPServerInfo)).
    destruct (decide (key = name)) as [->|Hne].
    + rewrite lookup_insert_eq, (not_elem_of_list_to_map_1 items name) by done.
      by rewrite lookup_insert_eq.
    + rewrite (lookup_insert_ne (list_to_map items)) by done.
      destruct (_ !! name); [done|]. by rewrite lookup_insert_ne.
Qed.

Lemma addServers_empty (discovered : gmap string Discovery.MCPServerInfo) :
  addServers discovered ∅ = entryOf <$> discovered.
Proof.
  apply map_eq. intros name. unfold addServers, entries.
  rewrite foldl_insert_lookup by apply NoDup_fst_map_to_list.
  rewrite list_to_map_to_list, lookup_fmap, lookup_empty.
  by destruct (discovered !! name).
Qed.

Section WithRuntime.
Context `{Runtime}.

Lemma discover_rejected (net : Discovery.Network) (technologies : list string) :
  Discovery.repoContents net = Discovery.Rejected →
  Discovery.discoverMCPServers net technologies = Discovery.fallbackServers.
Proof. intros Hnet. unfold Discovery.discoverMCPServers, Discovery.discoverBody. by rewrite Hnet. Qed.

Lemma enhanced_servers (net : Discovery.Network) (techStack : Planner.TechnologyStack)
    (existingConfig : MCPConfig) :
  serversOrEmpty (generateEnhancedMCPConfig net techStack existingConfig) =
  serversOrEmpty existingConfig ∪
  (entryOf <$> Discovery.discoverMCPServers net (Planner.technologiesOf techStack)).
Proof.
  unfold generateEnhancedMCPConfig, serversOrEmpty. simpl.
  rewrite addMissingServers_union. by destruct (mcpServers existingConfig).
Qed.




(** C4: when the listing request of the discovery fails, the configuration
    generated for [analyze] and for [plan] is the fallback one, which holds
    [brave-search] and [sequential-thinking]; [analyzeProject] then reports
    that configuration. *)
Theorem fallback_when_discovery_unreachable (net : Discovery.Network) :
  Discovery.repoContents net = Discovery.Rejected →
  let fallback := entryOf <$> Discovery.fallbackServers in
  (∀ stats, Analyzer.generateMCPConfig net stats = {| mcpServers := Some fallback |}) ∧
  (∀ techStack, Planner.generateMCPConfig net techStack = {| mcpServers := Some fallback |}) ∧
  fallback !! "brave-search" =
    Some {| command := "npx";
            args := ["-y"; "@modelcontextprotocol/server-brave-search"];
            env := Some {[ "BRAVE_API_KEY" := "YOUR_API_KEY_HERE" ]} |} ∧
  fallback !! "sequential-thinking" =
    Some {| command := "npx";
            args := ["-y"; "@modelcontextprotocol/server-sequential-thinking"];
            env := None |} ∧
  dom fallback = {[ "brave-search"; "sequential-thinking" ]} ∧
  (∀ root projectPath env,
     ∃ s env',
       Analyzer.analyzeProject net (Analyzer.mkDisk None None None) root projectPath env =
         (Returned (Analyzer.Report s {| mcpServers := Some fallback |}), env')).
Proof.
  intros Hnet. cbv zeta. split_and!.
  - intros s. unfold Analyzer.generateMCPConfig.
    by rewrite discover_rejected, addServers_empty.
  - intros techStack. unfold Planner.generateMCPConfig.
    by rewrite discover_rejected, addServers_empty.
  - reflexivity.
  - reflexivity.
  - unfold Discovery.fallbackServers.
    rewrite dom_fmap_L, !dom_insert_L, dom_empty_L, (right_id_L ∅ (∪)).
    apply (comm_L (∪)).
  - intros root projectPath env.
    destruct (WalkFacts.returns_scanProject root projectPath env) as (s & env' & Hscan).
    exists s, env'. unfold Analyzer.analyzeProject, try_catch, mbind, M_bind. simpl.
    rewrite Hscan. unfold Analyzer.generateMCPConfig.
    by rewrite discover_rejected, addServers_empty.
Qed.

End WithRuntime.




Lemma fallback_when_discovery_unreachable_witness :
  Analyzer.generateMCPConfig (H:=Sample.runtime) Sample.unreachable emptyStats =
  {| mcpServers := Some (entryOf <$> Discovery.fallbackServers) |}.
Proof.
  apply (fallback_when_discovery_unreachable (H:=Sample.runtime) Sample.unreachable).
  reflexivity.
Defined.

End ConfigFacts.

(** ** More on the walks *)

Module WalkMore.
Import WalkFacts.

Lemma countOf_count_ext_other (ext ext' : string) (env : Env) :
  ext' ≠ ext →
  countOf ext {| stats := set_fileTypes (count_ext ext') (stats env); console := console env |} =
  countOf ext env.
Proof. intros Hne. unfold countOf, count_ext. simpl. by rewrite lookup_insert_ne. Qed.

Lemma truthy_empty_iff (s : string) : Str.truthy s = false ↔ s = "".
Proof. unfold Str.truthy. rewrite negb_false_iff. apply bool_decide_eq_true. Qed.

Lemma Forall_push_new (P : string → Prop) (x : string) (arr : list string) :
  P x → Forall P arr → Forall P (push_new x arr).
Proof.
  intros Hx Harr. unfold push_new. destruct (includes arr x); [done|].
  apply Forall_app. by split; [|constructor].
Qed.

Lemma Forall_push_new_if (P : string → Prop) (cond : bool) (x : string) (arr : list string) :
  P x → Forall P arr → Forall P (push_new_if cond x arr).
Proof. destruct cond; simpl; auto using Forall_push_new. Qed.

Lemma Forall_push_if (P : string → Prop) (cond : bool) (x : string) (arr : list string) :
  P x → Forall P arr → Forall P (push_if cond x arr).
Proof.
  intros Hx Harr. destruct cond; simpl; [|done]. apply Forall_app. by split; [|constructor].
Qed.

Lemma Forall_set_of (P : string → Prop) (arr : list string) :
  Forall P arr → Forall P (set_of arr).
Proof.
  rewrite !Forall_forall. intros Harr x Hx. apply Harr. by apply elem_of_set_of.
Qed.

Ltac in_list :=
  repeat first [ apply list_elem_of_here | apply list_elem_of_further ].

Lemma Forall_branch (P : string → Prop) (cond : bool) (x : string) (arr rest : list string) :
  P x → Forall P arr → Forall P rest → Forall P (if cond then arr ++ [x] else rest).
Proof.
  intros Hx Harr Hrest. destruct cond; [|done]. apply Forall_app. by split; [|constructor].
Qed.

Lemma Forall_detectLanguageInline (ext : string) (langs : list string) :
  Forall (λ x, x ∈ scannedLanguages) langs →
  Forall (λ x, x ∈ scannedLanguages) (detectLanguageInline ext langs).
Proof.
  intros Hl. unfold detectLanguageInline.
  repeat (apply Forall_branch; [in_list|exact Hl|]). exact Hl.
Qed.

Section WithRuntime.
Context `{Runtime}.

(** X1: [scanProjectDirectory] reads nothing [MAX_SCAN_DEPTH] levels or
    more below its start: its effect and its result are those of the walk
    of the tree cut at the levels that remain. *)
Theorem walk_is_cut_at_max_depth (root : dir) (projectPath : string)
    (currentDepth fileCount : N) (env : Env) :
  scanProjectDirectory root projectPath currentDepth fileCount env =
  scanProjectDirectory (truncate (N.to_nat (MAX_SCAN_DEPTH - currentDepth)) root)
    projectPath currentDepth fileCount env.
Proof. apply scanProjectDirectory_truncate. lia. Qed.

Lemma scanEntries_flat (recurse : dir → string → N → M unit) (projectPath : string)
    (entries : list entry) (fileCount : N) (env : Env) :
  noDirectories entries = true →
  ∃ env',
    scanEntries recurse projectPath entries fileCount env = (Returned tt, env') ∧
    console env' = console env ∧
    ∀ ext, Str.truthy ext = true →
           countOf ext env' = countOf ext env + ownCount ext entries.
Proof.
  revert fileCount env.
  induction entries as [|e entries IH]; intros fileCount env Hflat.
  - exists env. split_and!; [done..|]. intros. simpl. lia.
  - apply andb_true_iff in Hflat as [He Hflat].
    destruct e as [name content| |name]; [|done|].
    + cbn [scanEntries ownCount]. rewrite bind_run.
      destruct (Str.truthy (toLowerCase (Path.extname name))) eqn:Hext.
      * simpl. edestruct IH as (env' & -> & Hconsole & Hcount); [done|].
        exists env'. split_and!; [done..|]. intros ext Hx. rewrite (Hcount ext Hx).
        case_bool_decide as Heq.
        -- rewrite <-Heq, countOf_count_ext. lia.
        -- rewrite countOf_count_ext_other by done. lia.
      * simpl. edestruct IH as (env' & -> & Hconsole & Hcount); [done|].
        exists env'. split_and!; [done..|]. intros ext Hx. rewrite (Hcount ext Hx).
        rewrite bool_decide_eq_false_2; [lia|]. intros Heq. congruence.
    + cbn [scanEntries ownCount]. by apply IH.
Qed.

(** X2: [MAX_FILES] is tested on entry to a directory only.  A directory
    without subdirectories that is entered below both bounds has every one
    of its files with an extension counted, however many and whatever
    [fileCount] was; entered at or above a bound, it is not read. *)
Theorem budget_is_tested_on_entry_only (entries : list entry) (projectPath : string)
    (currentDepth fileCount : N) (env : Env) :
  noDirectories entries = true →
  (currentDepth < MAX_SCAN_DEPTH → fileCount < MAX_FILES →
   ∃ env',
     scanProjectDirectory (Listing entries) projectPath currentDepth fileCount env =
       (Returned tt, env') ∧
     console env' = console env ∧
     ∀ ext, Str.truthy ext = true →
            countOf ext env' = countOf ext env + ownCount ext entries) ∧
  (MAX_SCAN_DEPTH ≤ currentDepth ∨ MAX_FILES ≤ fileCount →
   scanProjectDirectory (Listing entries) projectPath currentDepth fileCount env =
     (Returned tt, env)).
Proof.
  intros Hflat. rewrite scanProjectDirectory_eq. split.
  - intros Hdepth Hcount.
    apply N.leb_gt in Hdepth as ->. apply N.leb_gt in Hcount as ->. simpl.
    unfold try_catch.
    edestruct scanEntries_flat as (env' & -> & Hconsole & Hcounts); [done|].
    by exists env'.
  - intros [Hdepth|Hcount].
    + apply N.leb_le in Hdepth as ->. done.
    + apply N.leb_le in Hcount as ->. by rewrite orb_true_r.
Qed.

(** *** What [scanProject] counts *)

Lemma fileTypes_fromPackageDeps (deps : list (string * bool)) (s : ProjectStats) :
  fileTypes (fromPackageDeps deps s) = fileTypes s.
Proof. reflexivity. Qed.

Lemma fileTypes_fromRequirements (reqs : list string) (s : ProjectStats) :
  fileTypes (fromRequirements reqs s) = fileTypes s.
Proof. reflexivity. Qed.

Lemma fileTypes_specialFile (name : string) (content : option string) (s : ProjectStats) :
  fileTypes (specialFile name content s) = fileTypes s.
Proof.
  unfold specialFile.
  repeat match goal with
         | |- fileTypes (if ?c then _ else _) = _ => destruct c
         | |- fileTypes (match ?c with Some _ => _ | None => _ end) = _ => destruct c
         end; reflexivity.
Qed.

Lemma countOf_scanFile (ext name : string) (content : option string) (env : Env) :
  Str.truthy ext = true →
  countOf ext {| stats := scanFile name content (stats env); console := console env |} =
  countOf ext env +
  (if bool_decide (toLowerCase (Path.extname name) = ext) then 1 else 0).
Proof.
  intros Hx. unfold countOf at 1. cbn [stats]. unfold scanFile.
  rewrite fileTypes_specialFile.
  destruct (Str.truthy (toLowerCase (Path.extname name))) eqn:Hext.
  - cbn [fileTypes set_languages set_fileTypes]. unfold count_ext, countOf.
    case_bool_decide as Heq.
    + by rewrite <-Heq, lookup_insert_eq.
    + rewrite lookup_insert_ne by done. lia.
  - rewrite bool_decide_eq_false_2 by congruence. unfold countOf. lia.
Qed.

Lemma scanDirEntries_counts (ext dirPath : string) (entries : list entry) :
  Str.truthy ext = true →
  Forall (λ e, match e with
               | Dir _ sub =>
                   ∀ path env, ∃ env',
                     scanDir sub path env = (Returned tt, env') ∧
                     countOf ext env' = countOf ext env + extCount ext sub
               | _ => True
               end) entries →
  ∀ env, ∃ env',
    scanDirEntries scanDir dirPath entries env = (Returned tt, env') ∧
    countOf ext env' = countOf ext env + extCount ext (Listing entries).
Proof.
  intros Hx. induction 1 as [|e entries He _ IH]; intros env.
  - exists env. split; [done|]. simpl. lia.
  - destruct e as [name content|name sub|name].
    + cbn [scanDirEntries]. rewrite bind_run. cbn [update_stats].
      destruct (IH {| stats := scanFile name content (stats env); console := console env |})
        as (env' & -> & Hcount).
      exists env'. split; [done|]. rewrite Hcount, countOf_scanFile by done.
      cbn [extCount foldr] in *. lia.
    + cbn [scanDirEntries]. destruct (ignoredDirectory name) eqn:Hign.
      * destruct (IH env) as (env' & -> & Hcount). exists env'. split; [done|].
        rewrite Hcount. cbn [extCount foldr]. rewrite Hign. cbn [extCount foldr]. lia.
      * rewrite bind_run.
        destruct (He (Path.join dirPath (entry_name (Dir name sub))) env)
          as (env1 & -> & Hcount1).
        destruct (IH env1) as (env' & -> & Hcount). exists env'. split; [done|].
        rewrite Hcount, Hcount1. cbn [extCount foldr]. rewrite Hign.
        cbn [extCount foldr]. lia.
    + cbn [scanDirEntries]. destruct (IH env) as (env' & -> & Hcount).
      exists env'. split; [done|]. rewrite Hcount. cbn [extCount foldr]. lia.
Qed.

Lemma scanDir_counts (ext : string) (root : dir) (dirPath : string) (env : Env) :
  Str.truthy ext = true →
  ∃ env',
    scanDir root dirPath env = (Returned tt, env') ∧
    countOf ext env' = countOf ext env + extCount ext root.
Proof.
  intros Hx. revert dirPath env.
  induction root as [error|entries IH] using dir_ind'; intros dirPath env.
  - eexists. split; [reflexivity|]. unfold countOf. simpl. lia.
  - rewrite scanDir_eq. unfold try_catch.
    destruct (scanDirEntries_counts ext dirPath entries Hx) with (env := env)
      as (env' & -> & Hcount).
    + eapply Forall_impl; [exact IH|]. intros [| |]; auto.
    + by exists env'.
Qed.

Lemma Counted_scanFile (name : string) (content : option string) (s : ProjectStats) :
  Counted s → Counted (scanFile name content s).
Proof.
  intros Hs ext n. unfold scanFile. rewrite fileTypes_specialFile.
  destruct (Str.truthy (toLowerCase (Path.extname name))) eqn:Hext; [|apply Hs].
  cbn [fileTypes set_languages set_fileTypes]. unfold count_ext.
  destruct (decide (toLowerCase (Path.extname name) = ext)) as [<-|Hne].
  - rewrite lookup_insert_eq. intros [= <-]. split; [done|]. lia.
  - rewrite lookup_insert_ne by done. apply Hs.
Qed.

(** X3: [scanProject] counts, for every extension, exactly the regular
    files with that (lower-cased, non-empty) extension that lie outside the
    ignored directories and below readable directories; an extension
    without such a file has no entry. *)
Theorem scanProject_counts_every_file (root : dir) (projectPath : string) (env : Env) :
  ∃ s env',
    scanProject root projectPath env = (Returned s, env') ∧
    ∀ ext,
      fileTypes s !! ext =
      if Str.truthy ext && (0 <? extCount ext root) then Some (extCount ext root) else None.
Proof.
  unfold scanProject.
  set (env0 := {| stats := emptyStats; console := console env |}).
  pose proof (preserves_scanDir Counted root projectPath Counted_scanFile env0) as Hpos.
  destruct (returns_scanDir root projectPath env0) as ([] & env1 & Hrun).
  rewrite Hrun in Hpos |- *. cbn [snd] in Hpos.
  assert (Hcounted : Counted (stats env1)).
  { apply Hpos. intros ext n. unfold env0. simpl. by rewrite lookup_empty. }
  eexists _, _. split; [reflexivity|]. intros ext. cbn [fileTypes set_features].
  destruct (Str.truthy ext) eqn:Hx; cbn [andb].
  - destruct (scanDir_counts ext root projectPath env0 Hx) as (env2 & Hrun2 & Hcount).
    rewrite Hrun in Hrun2. injection Hrun2 as <-.
    unfold countOf in Hcount. cbn [stats env0 emptyStats fileTypes] in Hcount.
    rewrite lookup_empty in Hcount. cbn [default from_option id] in Hcount. rewrite N.add_0_l in Hcount.
    destruct (fileTypes (stats env1) !! ext) as [n|] eqn:Hn; cbn [default from_option id] in Hcount.
    + destruct (Hcounted ext n Hn) as [_ Hpos']. rewrite Hcount in Hpos' |- *.
      apply N.ltb_lt in Hpos' as ->. done.
    + rewrite <-Hcount. done.
  - destruct (fileTypes (stats env1) !! ext) as [n|] eqn:Hn; [|done].
    destruct (Hcounted ext n Hn) as [Hx' _]. congruence.
Qed.

(** *** The labels of a scan *)

Lemma Known_fromPackageDeps (deps : list (string * bool)) (s : ProjectStats) :
  Known s → Known (fromPackageDeps deps s).
Proof.
  intros (Hl & Hf & Ht). unfold fromPackageDeps, Known; simpl. split_and!.
  - done.
  - repeat (apply Forall_push_new_if; [in_list|]). done.
  - repeat (apply Forall_push_if; [in_list|]). done.
Qed.

Lemma Known_fromRequirements (reqs : list string) (s : ProjectStats) :
  Known s → Known (fromRequirements reqs s).
Proof.
  intros (Hl & Hf & Ht). unfold fromRequirements, Known; simpl. split_and!.
  - done.
  - repeat (apply Forall_push_new_if; [in_list|]). done.
  - repeat (apply Forall_push_if; [in_list|]). done.
Qed.

Lemma Known_specialFile (name : string) (content : option string) (s : ProjectStats) :
  Known s → Known (specialFile name content s).
Proof.
  intros HK. unfold specialFile.
  repeat match goal with
         | |- Known (if ?c then _ else _) => destruct c
         end.
  - destruct (content ≫= packageDeps); [by apply Known_fromPackageDeps|done].
  - destruct content; [by apply Known_fromRequirements|done].
  - destruct HK as (Hl & Hf & Ht).
    destruct content; unfold Known; simpl; split_and!; try done;
      repeat first [ apply Forall_push_new_if; [in_list|]
                   | apply Forall_push_new; [in_list|] ]; done.
  - destruct HK as (Hl & Hf & Ht).
    destruct content; unfold Known; simpl; split_and!; try done;
      repeat first [ apply Forall_push_new_if; [in_list|]
                   | apply Forall_push_new; [in_list|] ]; done.
  - destruct HK as (Hl & Hf & Ht). unfold Known; simpl. split_and!; [done..|].
    apply Forall_app. split; [done|]. constructor; [|done].
    in_list.
  - destruct HK as (Hl & Hf & Ht). unfold Known; simpl. split_and!; [done..|].
    apply Forall_app. split; [done|]. constructor; [|done].
    in_list.
  - done.
Qed.

Lemma Known_scanFile (name : string) (content : option string) (s : ProjectStats) :
  Known s → Known (scanFile name content s).
Proof.
  intros (Hl & Hf & Ht). unfold scanFile. apply Known_specialFile.
  destruct (Str.truthy _); [|done].
  unfold Known; simpl. split_and!; [by apply Forall_detectLanguageInline|done..].
Qed.

(** X4: whatever the project contains, [scanProject] reports languages,
    frameworks and features from three fixed lists only. *)
Theorem scanProject_labels_are_known (root : dir) (projectPath : string) (env : Env) :
  ∃ s env',
    scanProject root projectPath env = (Returned s, env') ∧
    (∀ x, x ∈ languages s → x ∈ scannedLanguages) ∧
    (∀ x, x ∈ frameworks s → x ∈ scannedFrameworks) ∧
    (∀ x, x ∈ features s → x ∈ scannedFeatures).
Proof.
  unfold scanProject.
  set (env0 := {| stats := emptyStats; console := console env |}).
  pose proof (preserves_scanDir Known root projectPath Known_scanFile env0) as HK.
  destruct (returns_scanDir root projectPath env0) as ([] & env1 & Hrun).
  rewrite Hrun in HK |- *. cbn [snd] in HK.
  destruct HK as (Hl & Hf & Ht); [repeat split; constructor|].
  eexists _, _. split; [reflexivity|]. cbn [languages frameworks features set_features].
  apply Forall_set_of in Ht. rewrite Forall_forall in Hl, Hf, Ht. auto.
Qed.

End WithRuntime.

Lemma budget_is_tested_on_entry_only_witness :
  ∃ env',
    scanProjectDirectory (H:=Sample.runtime)
      (Listing [File "a.js" None; File "b.js" None; File "c.ts" None]) "/project" 3 9999
      Sample.start = (Returned tt, env') ∧
    console env' = [] ∧
    ∀ ext, Str.truthy ext = true →
           countOf ext env' =
           countOf ext Sample.start +
           ownCount (H:=Sample.runtime) ext [File "a.js" None; File "b.js" None; File "c.ts" None].
Proof.
  apply (proj1 (budget_is_tested_on_entry_only (H:=Sample.runtime)
                  [File "a.js" None; File "b.js" None; File "c.ts" None] "/project" 3 9999
                  Sample.start eq_refl)); reflexivity.
Defined.

End WalkMore.

(** ** The detectors *)

Module DetectorFacts.
Import Detectors.

Lemma includes_snoc_same (x : string) (arr : list string) : includes (arr ++ [x]) x = true.
Proof. unfold includes. apply bool_decide_eq_true. set_solver. Qed.

(** X5: [detectLanguageFromExtension] is idempotent: detecting the same
    extension again changes nothing. *)
Theorem detectLanguageFromExtension_idempotent (ext : string) (s : ProjectStats) :
  detectLanguageFromExtension ext (detectLanguageFromExtension ext s) =
  detectLanguageFromExtension ext s.
Proof.
  unfold detectLanguageFromExtension.
  destruct (languageMap !! ext) as [language|]; [|done].
  destruct (Str.truthy language && negb (includes (languages s) language)) eqn:Hcond.
  - cbn [languages set_languages]. by rewrite includes_snoc_same, andb_false_r.
  - by rewrite Hcond.
Qed.


Lemma foldl_set_frameworks {A} (f : ProjectStats → A → ProjectStats)
    (g : list string → A → list string) (items : list A) (s : ProjectStats) :
  (∀ s a, f s a = set_frameworks (λ l, g l a) s) →
  foldl f s items = set_frameworks (λ l, foldl g l items) s.
Proof.
  intros Hfg. revert s. induction items as [|a items IH]; intros s; [by destruct s|].
  cbn [foldl]. rewrite Hfg, IH. by destruct s.
Qed.

Lemma foldl_set_features {A} (f : ProjectStats → A → ProjectStats)
    (g : list string → A → list string) (items : list A) (s : ProjectStats) :
  (∀ s a, f s a = set_features (λ l, g l a) s) →
  foldl f s items = set_features (λ l, foldl g l items) s.
Proof.
  intros Hfg. revert s. induction items as [|a items IH]; intros s; [by destruct s|].
  cbn [foldl]. rewrite Hfg, IH. by destruct s.
Qed.

Lemma frameworks_detect (deps : list (string * string)) (s : ProjectStats) :
  detectFrameworksFromDependencies deps s =
  set_frameworks (λ l, foldl frameworkStep l deps) s.
Proof.
  apply foldl_set_frameworks. intros [ft langs fws ds fs] kv. unfold frameworkStep.
  destruct (frameworkMap !! kv.1); [|done].
  unfold set_frameworks. cbn [fileTypes languages frameworks dependencies features].
  by destruct (_ && _).
Qed.

Lemma features_detect (deps : list (string * string)) (s : ProjectStats) :
  detectFeaturesFromDependencies deps s =
  set_features (λ l, foldl (featureStep deps) l featureDependencies) s.
Proof.
  apply foldl_set_features. intros [ft langs fws ds fs] kv. unfold featureStep.
  unfold set_features. cbn [fileTypes languages frameworks dependencies features].
  by destruct (_ && _).
Qed.

(** A pass over any table keeps what is there and leaves out nothing that
    the table asks for. *)
Lemma featureStep_grows (deps : list (string * string)) (l : list string)
    (kv : string * string) : ∀ x, x ∈ l → x ∈ featureStep deps l kv.
Proof. intros x Hx. unfold featureStep. destruct (_ && _); set_solver. Qed.

Lemma foldl_featureStep_grows (deps table : list (string * string)) (l : list string) :
  ∀ x, x ∈ l → x ∈ foldl (featureStep deps) l table.
Proof.
  revert l. induction table as [|kv table IH]; intros l x Hx; [done|].
  cbn [foldl]. by apply IH, featureStep_grows.
Qed.

Lemma foldl_featureStep_fixed (deps table : list (string * string)) (l : list string) :
  (∀ kv, kv ∈ table → hasKey deps kv.1 = true → kv.2 ∈ l) →
  foldl (featureStep deps) l table = l.
Proof.
  induction table as [|kv table IH]; intros Hl; [done|].
  cbn [foldl]. assert (featureStep deps l kv = l) as ->.
  { unfold featureStep. destruct (hasKey deps kv.1) eqn:Hk; [|done].
    unfold includes. rewrite bool_decide_eq_true_2; [done|]. apply Hl; [left|done]. }
  apply IH. intros kv' Hin. apply Hl. by right.
Qed.

Lemma foldl_featureStep_complete (deps table : list (string * string)) (l : list string) :
  ∀ kv, kv ∈ table → hasKey deps kv.1 = true → kv.2 ∈ foldl (featureStep deps) l table.
Proof.
  revert l. induction table as [|kv' table IH]; intros l kv Hin Hk.
  - by apply elem_of_nil in Hin.
  - cbn [foldl]. apply elem_of_cons in Hin as [->|Hin]; [|by apply IH].
    apply foldl_featureStep_grows. unfold featureStep. rewrite Hk.
    unfold includes. case_bool_decide; simpl; set_solver.
Qed.

Lemma frameworkStep_grows (l : list string) (kv : string * string) :
  ∀ x, x ∈ l → x ∈ frameworkStep l kv.
Proof.
  intros x Hx. unfold frameworkStep. destruct (frameworkMap !! kv.1); [|done].
  destruct (_ && _); set_solver.
Qed.

Lemma foldl_frameworkStep_grows (deps : list (string * string)) (l : list string) :
  ∀ x, x ∈ l → x ∈ foldl frameworkStep l deps.
Proof.
  revert l. induction deps as [|kv deps IH]; intros l x Hx; [done|].
  cbn [foldl]. by apply IH, frameworkStep_grows.
Qed.

Lemma truthy_framework (key framework : string) :
  frameworkMap !! key = Some framework → Str.truthy framework = true.
Proof.
  unfold frameworkMap. intros Hin%elem_of_list_to_map_2.
  unfold frameworkTable in Hin.
  repeat (apply elem_of_cons in Hin as [[= -> ->]|Hin]; [reflexivity|]).
  by apply elem_of_nil in Hin.
Qed.

Lemma foldl_frameworkStep_complete (deps : list (string * string)) (l : list string) :
  ∀ kv framework, kv ∈ deps → frameworkMap !! kv.1 = Some framework →
                  framework ∈ foldl frameworkStep l deps.
Proof.
  revert l. induction deps as [|kv' deps IH]; intros l kv framework Hin Hk.
  - by apply elem_of_nil in Hin.
  - cbn [foldl]. apply elem_of_cons in Hin as [->|Hin]; [|by eapply IH].
    apply foldl_frameworkStep_grows. unfold frameworkStep.
    rewrite Hk, (truthy_framework _ _ Hk). unfold includes.
    case_bool_decide; simpl; set_solver.
Qed.

Lemma foldl_frameworkStep_fixed (deps : list (string * string)) (l : list string) :
  (∀ kv framework, kv ∈ deps → frameworkMap !! kv.1 = Some framework → framework ∈ l) →
  foldl frameworkStep l deps = l.
Proof.
  induction deps as [|kv deps IH]; intros Hl; [done|].
  cbn [foldl]. assert (frameworkStep l kv = l) as ->.
  { unfold frameworkStep. destruct (frameworkMap !! kv.1) as [framework|] eqn:Hk; [|done].
    unfold includes. rewrite bool_decide_eq_true_2, andb_false_r; [done|].
    eapply Hl; [left|done]. }
  apply IH. intros kv' framework Hin. apply Hl. by right.
Qed.

(** X7: the two dependency detectors are idempotent: a second pass over
    the same dependencies adds nothing. *)
Theorem dependency_detectors_idempotent (deps : list (string * string)) (s : ProjectStats) :
  detectFrameworksFromDependencies deps (detectFrameworksFromDependencies deps s) =
    detectFrameworksFromDependencies deps s ∧
  detectFeaturesFromDependencies deps (detectFeaturesFromDependencies deps s) =
    detectFeaturesFromDependencies deps s.
Proof.
  split.
  - rewrite !frameworks_detect. destruct s as [ft langs fws ds fs].
    unfold set_frameworks. cbn [fileTypes languages frameworks dependencies features].
    f_equal. apply foldl_frameworkStep_fixed. intros kv framework Hin Hk.
    by eapply foldl_frameworkStep_complete.
  - rewrite !features_detect. destruct s as [ft langs fws ds fs].
    unfold set_features. cbn [fileTypes languages frameworks dependencies features].
    f_equal. apply foldl_featureStep_fixed. intros kv Hin Hk.
    by apply foldl_featureStep_complete.
Qed.

Lemma NoDup_frameworkStep (l : list string) (kv : string * string) :
  NoDup l → NoDup (frameworkStep l kv).
Proof.
  intros Hl. unfold frameworkStep. destruct (frameworkMap !! kv.1) as [framework|]; [|done].
  destruct (Str.truthy framework); [|done]. cbn [andb].
  destruct (includes l framework) eqn:Hin; [done|]. by apply WalkFacts.NoDup_snoc_fresh.
Qed.

Lemma NoDup_featureStep (deps : list (string * string)) (l : list string)
    (kv : string * string) :
  NoDup l → NoDup (featureStep deps l kv).
Proof.
  intros Hl. unfold featureStep. destruct (hasKey deps kv.1); [|done]. cbn [andb].
  destruct (includes l kv.2) eqn:Hin; [done|]. by apply WalkFacts.NoDup_snoc_fresh.
Qed.

(** X8: the three detectors never create a duplicate: lists without
    duplicates stay so. *)
Theorem detectors_keep_labels_distinct (ext : string) (deps : list (string * string))
    (s : ProjectStats) :
  NoDup (languages s) → NoDup (frameworks s) → NoDup (features s) →
  NoDup (languages (detectLanguageFromExtension ext s)) ∧
  NoDup (frameworks (detectFrameworksFromDependencies deps s)) ∧
  NoDup (features (detectFeaturesFromDependencies deps s)).
Proof.
  intros Hl Hf Ht. split_and!.
  - by apply WalkFacts.NoDup_detectLanguageFromExtension.
  - rewrite frameworks_detect. cbn [frameworks set_frameworks].
    apply WalkFacts.NoDup_foldl_push; [|done]. intros. by apply NoDup_frameworkStep.
  - rewrite features_detect. cbn [features set_features].
    apply WalkFacts.NoDup_foldl_push; [|done]. intros. by apply NoDup_featureStep.
Qed.

Lemma detectors_keep_labels_distinct_witness :
  NoDup (languages (detectLanguageFromExtension ".ts" emptyStats)) ∧
  NoDup (frameworks (detectFrameworksFromDependencies [("react", "18.2.0")] emptyStats)) ∧
  NoDup (features (detectFeaturesFromDependencies [("react", "18.2.0")] emptyStats)).
Proof.
  apply (detectors_keep_labels_distinct ".ts" [("react", "18.2.0")] emptyStats);
    constructor.
Defined.

(** *** The detectors and the [package.json] block of [scanDir] *)
















End DetectorFacts.

(** ** More on the free-text classifier *)

Module PlannerMore.
Import Regex Planner PlannerFacts PlannerWords PlannerFiles.

Lemma push_if_app (cond : bool) (x : string) (arr : list string) :
  push_if cond x arr = arr ++ (if cond then [x] else []).
Proof. destruct cond; simpl; [done|by rewrite app_nil_r]. Qed.

Lemma sublist_optional (cond : bool) (x : string) (l k : list string) :
  l `sublist_of` k → (if cond then [x] else []) ++ l `sublist_of` x :: k.
Proof. intros Hl. destruct cond; simpl; [by apply sublist_skip|by apply sublist_cons]. Qed.

Ltac in_order :=
  rewrite !push_if_app, <-!app_assoc, app_nil_l;
  repeat (apply sublist_optional);
  match goal with |- (if ?c then _ else _) `sublist_of` _ => destruct c end;
  [apply sublist_skip|apply sublist_cons]; apply sublist_nil.

(** X10: whatever the description, the labels of [analyzeTechStack] come in
    the order in which the tests are written, each at most once. *)
Theorem labels_in_declaration_order (description : string) :
  languages (analyzeTechStack description) `sublist_of` declaredLanguages ∧
  frameworks (analyzeTechStack description) `sublist_of` declaredFrameworks ∧
  features (analyzeTechStack description) `sublist_of` declaredFeatures.
Proof.
  split_and!; simpl.
  - unfold detect_languages, declaredLanguages. in_order.
  - unfold detect_frameworks, declaredFrameworks. in_order.
  - unfold detect_features, declaredFeatures. in_order.
Qed.

Lemma test_mono (r : regex) (inner outer : string) (before after : list ascii) :
  Str.to_list outer = before ++ Str.to_list inner ++ after →
  test r inner = true → test r outer = true.
Proof.
  intros Houter (p & w & q & Hinner & Hm)%test_spec. apply test_spec.
  exists (before ++ p), w, (q ++ after). split; [|done].
  rewrite Houter, Hinner, <-!app_assoc. done.
Qed.

Ltac split_cases H :=
  repeat match type of H with
         | _ ∨ _ => destruct H as [H|H]
         end.

Ltac choose_label :=
  repeat first [ by (right; split; [assumption|reflexivity]) | left ].

(** X11: a description that contains another one keeps all its frameworks
    and features, and all its languages but [JavaScript], the only label a
    longer text can lose. *)
Theorem labels_survive_more_text (inner outer : string) (before after : list ascii) :
  Str.to_list outer = before ++ Str.to_list inner ++ after →
  (∀ x, x ≠ "JavaScript" →
        x ∈ languages (analyzeTechStack inner) → x ∈ languages (analyzeTechStack outer)) ∧
  (∀ x, x ∈ frameworks (analyzeTechStack inner) → x ∈ frameworks (analyzeTechStack outer)) ∧
  (∀ x, x ∈ features (analyzeTechStack inner) → x ∈ features (analyzeTechStack outer)).
Proof.
  intros Houter.
  assert (Hmono : ∀ r, test r inner = true → test r outer = true)
    by (intros r; by eapply test_mono).
  split_and!; simpl.
  - intros x Hx. unfold detect_languages. rewrite !elem_of_push_if, !elem_of_nil.
    intros Hin. split_cases Hin; try done.
    all: destruct Hin as [Ht ->]; try done.
    all: apply Hmono in Ht; choose_label.
  - intros x. unfold detect_frameworks. rewrite !elem_of_push_if, !elem_of_nil.
    intros Hin. split_cases Hin; try done.
    all: destruct Hin as [Ht ->].
    all: apply Hmono in Ht; choose_label.
  - intros x. unfold detect_features. rewrite !elem_of_push_if, !elem_of_nil.
    intros Hin. split_cases Hin; try done.
    all: destruct Hin as [Ht ->].
    all: apply Hmono in Ht; choose_label.
Qed.

Lemma labels_survive_more_text_witness :
  "Django" ∈ frameworks (analyzeTechStack "A Django shop, with payments").
Proof.
  apply (proj1 (proj2 (labels_survive_more_text "Django" "A Django shop, with payments"
                         (Str.to_list "A ") (Str.to_list " shop, with payments")
                         eq_refl))).
  vm_compute. apply list_elem_of_here.
Defined.

(** *** Frameworks and their languages *)

Lemma test_inside (rs : list regex) (word : string) (r : regex) (subject : string) :
  lit word ∈ rs → Inside r word →
  test r subject = true → test (alts rs) subject = true.
Proof.
  intros Hin Hr (before & w & after & Hs & Hm)%test_spec.
  destruct (Hr w Hm) as (p & v & q & -> & Hv).
  apply (test_literal rs word subject (before ++ p) v (q ++ after)); [done| |done].
  rewrite Hs, <-!app_assoc. done.
Qed.

Lemma inside_lit (word : string) : Inside (lit word) word.
Proof.
  intros w Hm. exists [], w, []. rewrite app_nil_r. split; [done|].
  by apply RegexFacts.lit_l_spec.
Qed.




(** [javascript] has [java] inside. *)
Lemma inside_javascript : Inside (lit "javascript") "java".
Proof.
  intros w Hw%RegexFacts.lit_l_spec.
  destruct w as [|c1 [|c2 [|c3 [|c4 w]]]]; try discriminate.
  injection Hw as H1 H2 H3 H4 _.
  exists [], [c1; c2; c3; c4], w. split; [done|]. simpl. by rewrite H1, H2, H3, H4.
Qed.

Lemma framework_tested (description x : string) :
  x ∈ detect_frameworks description →
  (x = "React" ∧ test re_react description = true) ∨
  (x = "Next.js" ∧ test re_next description = true) ∨
  (x = "Vue.js" ∧ test re_vue description = true) ∨
  (x = "Angular" ∧ test re_angular description = true) ∨
  (x = "Express" ∧ test re_express description = true) ∨
  (x = "Django" ∧ test re_django description = true) ∨
  (x = "Flask" ∧ test re_flask description = true) ∨
  (x = "FastAPI" ∧ test re_fastapi description = true) ∨
  (x = "Rails" ∧ test re_rails description = true) ∨
  (x = "Spring" ∧ test re_spring description = true) ∨
  (x = "Laravel" ∧ test re_laravel description = true) ∨
  (x = "ASP.NET" ∧ test re_aspnet description = true) ∨
  (x = "Svelte" ∧ test re_svelte description = true) ∨
  (x = "Flutter" ∧ test re_flutter description = true) ∨
  (x = "Gatsby" ∧ test re_gatsby description = true) ∨
  (x = "Nuxt.js" ∧ test re_nuxt description = true).
Proof.
  unfold detect_frameworks. rewrite !elem_of_push_if, elem_of_nil. tauto.
Qed.

Lemma language_intro (description x : string) :
  (x = "TypeScript" ∧ test re_typescript description = true) ∨
  (x = "Python" ∧ test re_python description = true) ∨
  (x = "Java" ∧ test re_java description = true) ∨
  (x = "Ruby" ∧ test re_ruby description = true) ∨
  (x = "C#" ∧ test re_csharp description = true) ∨
  (x = "PHP" ∧ test re_php description = true) →
  x ∈ detect_languages description.
Proof.
  unfold detect_languages. rewrite !elem_of_push_if, elem_of_nil. tauto.
Qed.

Ltac known_word := repeat first [ apply list_elem_of_here | apply list_elem_of_further ].

Lemma react_is_typescript (description : string) :
  "React" ∈ detect_frameworks description → "TypeScript" ∈ detect_languages description.
Proof.
  intros Hin%framework_tested. apply language_intro. left. split; [done|].
  split_cases Hin; destruct Hin as [Heq Ht]; try discriminate Heq.
  apply (test_inside _ "react" re_react); [known_word|apply inside_lit|done].
Qed.



(** X13: a description that names JavaScript, in any letter case, is
    labelled Java: [/java|spring|.../i] matches the first four letters. *)
Theorem javascript_is_labelled_java (description : string) (before word after : list ascii) :
  Str.to_list description = before ++ word ++ after →
  Str.fold_case <$> word = Str.to_list "javascript" →
  "Java" ∈ languages (analyzeTechStack description).
Proof.
  intros Hd Hw. simpl. apply language_intro. do 2 right. left. split; [done|].
  apply (test_inside _ "java" (lit "javascript")); [known_word|apply inside_javascript|].
  apply test_spec. exists before, word, after. split; [done|].
  by apply RegexFacts.lit_l_spec.
Qed.

Lemma javascript_is_labelled_java_witness :
  "Java" ∈ languages (analyzeTechStack "A JavaScript snake game").
Proof.
  apply (javascript_is_labelled_java "A JavaScript snake game"
           (Str.to_list "A ") (Str.to_list "JavaScript") (Str.to_list " snake game"));
    reflexivity.
Defined.

(** *** What a plan that mentions React gets *)

Lemma includes_true (arr : list string) (x : string) : includes arr x = true ↔ x ∈ arr.
Proof. unfold includes. apply bool_decide_eq_true. Qed.

(** X14: for a description that makes [analyzeTechStack] answer React, the
    planner's [generateRules] gives both of its rules, [typescript-strict]
    first. *)
Theorem react_plan_gets_both_rules (description : string) :
  "React" ∈ frameworks (analyzeTechStack description) →
  name <$> generateRules (analyzeTechStack description) =
  ["typescript-strict"; "react-hooks"].
Proof.
  simpl. intros Hreact. pose proof (react_is_typescript _ Hreact) as Hts.
  apply includes_true in Hreact, Hts.
  unfold generateRules. simpl. rewrite Hreact, Hts. reflexivity.
Qed.

Lemma react_plan_gets_both_rules_witness :
  name <$> generateRules (analyzeTechStack "A React dashboard") =
  ["typescript-strict"; "react-hooks"].
Proof.
  apply (react_plan_gets_both_rules "A React dashboard").
  vm_compute. apply list_elem_of_here.
Defined.

(** X15: for such a description [generateStarterFiles] writes the manifest
    (with the React typings among its dependencies), [tsconfig.json] and
    [src/index.ts] and nothing else, no Python file whatever else the text
    names, while the report of [generateStarterFilesList] announces
    [src/App.tsx] and [src/index.tsx], which are not written. *)
Theorem react_plan_files (description projectPath : string) :
  "React" ∈ frameworks (analyzeTechStack description) →
  generateStarterFiles projectPath (analyzeTechStack description) =
  [(Path.join projectPath "package.json",
    PackageJson ([("typescript", "^5.0.0"); ("@types/node", "^20.0.0");
                  ("ts-node", "^10.9.0"); ("@types/react", "^18.0.0");
                  ("@types/react-dom", "^18.0.0")] ++
                 (if includes (frameworks (analyzeTechStack description)) "Express"
                  then [("@types/express", "^4.17.0")] else [])));
   (Path.join projectPath "tsconfig.json", TsConfig);
   (Path.join (Path.join projectPath "src") "index.ts",
    IndexTs (includes (frameworks (analyzeTechStack description)) "Express"))] ∧
  generateStarterFilesList (analyzeTechStack description) =
  "- `tsconfig.json` - TypeScript configuration
- `src/App.tsx` - Main React component
- `src/index.tsx` - Application entry point".
Proof.
  simpl. intros Hreact. pose proof (react_is_typescript _ Hreact) as Hts.
  apply includes_true in Hreact, Hts. split.
  - unfold generateStarterFiles, starterDependencies. simpl. rewrite Hreact, Hts. simpl.
    destruct (includes (detect_frameworks description) "Express"); reflexivity.
  - unfold generateStarterFilesList. simpl. rewrite Hreact, Hts. reflexivity.
Qed.

Lemma react_plan_files_witness :
  generateStarterFilesList (analyzeTechStack "A Django backend with a React frontend") =
  "- `tsconfig.json` - TypeScript configuration
- `src/App.tsx` - Main React component
- `src/index.tsx` - Application entry point".
Proof.
  apply (react_plan_files "A Django backend with a React frontend" "/tmp/shop").
  vm_compute. apply list_elem_of_here.
Defined.


End PlannerMore.

(** ** Discovery, generated configurations and rules *)

Module DiscoveryFacts.
Import Discovery DiscoveryWords ConfigFacts.

(** The descriptor [discoverMCPServers] builds for a server name. *)
Lemma wellFormed_fallback (serverName : string) (info : MCPServerInfo) :
  fallbackServers !! serverName = Some info →
  entryOf info =
  mkEntry "npx" ["-y"; "@modelcontextprotocol/server-" +:+ serverName]
      (if bool_decide (serverName = "brave-search")
            then Some {[ "BRAVE_API_KEY" := "YOUR_API_KEY_HERE" ]} else None).
Proof.
  unfold fallbackServers. intros Hl.
  apply lookup_insert_Some in Hl as [[<- <-]|[_ Hl]]; [reflexivity|].
  apply lookup_insert_Some in Hl as [[<- <-]|[_ Hl]]; [reflexivity|].
  by rewrite lookup_empty in Hl.
Qed.

Section WithRuntime.
Context `{Runtime}.

Lemma wellFormed_processServerDir (net : Network) (technologies : list string)
    (servers : gmap string MCPServerInfo) (dir : RepoItem)
    (P : string → MCPServerInfo → Prop) :
  (∀ description,
     P (item_name dir)
       {| name := item_name dir;
          description := description;
          repository :=
            "https://github.com/modelcontextprotocol/servers/tree/main/" +:+ item_name dir;
          installCommand := "npx";
          installArgs := ["-y"; "@modelcontextprotocol/server-" +:+ item_name dir];
          env := if bool_decide (item_name dir = "brave-search")
                 then Some {[ "BRAVE_API_KEY" := "YOUR_API_KEY_HERE" ]}
                 else None |}) →
  map_Forall P servers →
  map_Forall P (processServerDir net technologies servers dir).
Proof.
  intros Hnew Hservers. unfold processServerDir.
  destruct (readme net (item_name dir)) as [|[status readmeContent]]; [done|].
  match goal with |- map_Forall _ (match ?scored with _ => _ end) => destruct scored as [[d n]|] end;
    [|done].
  match goal with |- map_Forall _ (if ?c then _ else _) => destruct c end; [|done].
  apply map_Forall_insert_2; [apply Hnew|done].
Qed.

Lemma wellFormed_discovered (net : Network) (technologies : list string)
    (serverName : string) (info : MCPServerInfo) :
  discoverMCPServers net technologies !! serverName = Some info →
  entryOf info =
  mkEntry "npx" ["-y"; "@modelcontextprotocol/server-" +:+ serverName]
      (if bool_decide (serverName = "brave-search")
            then Some {[ "BRAVE_API_KEY" := "YOUR_API_KEY_HERE" ]} else None).
Proof.
  unfold discoverMCPServers, discoverBody.
  destruct (repoContents net) as [|[|items]].
  - apply wellFormed_fallback.
  - by rewrite lookup_empty.
  - revert serverName info.
    change (map_Forall (λ serverName info, entryOf info =
      mkEntry "npx" ["-y"; "@modelcontextprotocol/server-" +:+ serverName]
      (if bool_decide (serverName = "brave-search")
                then Some {[ "BRAVE_API_KEY" := "YOUR_API_KEY_HERE" ]} else None))
      (foldl (processServerDir net technologies) ∅
         (filter (λ item, item_type item = "dir" ∧
                          Str.starts_with (Str.to_list ".") (Str.to_list (item_name item)) = false)
                 items))).
    generalize (filter (λ item, item_type item = "dir" ∧
                          Str.starts_with (Str.to_list ".") (Str.to_list (item_name item)) = false)
                 items).
    intros dirs. generalize (map_Forall_empty (M:=gmap string)
      (λ serverName info, entryOf info =
      mkEntry "npx" ["-y"; "@modelcontextprotocol/server-" +:+ serverName]
      (if bool_decide (serverName = "brave-search")
                then Some {[ "BRAVE_API_KEY" := "YOUR_API_KEY_HERE" ]} else None))).
    generalize (∅ : gmap string MCPServerInfo).
    induction dirs as [|dir dirs IH]; intros servers Hservers; [done|].
    simpl. apply IH. apply wellFormed_processServerDir; [|done].
    intros description. reflexivity.
Qed.

(** X16: every tool entry that [generateMCPConfig], of the analyzer or of
    the planner, writes is [npx -y @modelcontextprotocol/server-<its key>],
    with the [BRAVE_API_KEY] environment on [brave-search] and on no other;
    in an enhanced configuration this holds of every entry that was not in
    the existing one. *)
Theorem generated_entries_are_npx_launchers (net : Network) (serverName : string)
    (entry : ServerEntry) :
  let launcher :=
    mkEntry "npx" ["-y"; "@modelcontextprotocol/server-" +:+ serverName]
      (if bool_decide (serverName = "brave-search")
              then Some {[ "BRAVE_API_KEY" := "YOUR_API_KEY_HERE" ]} else None) in
  (∀ stats,
     Enhancer.serversOrEmpty (Analyzer.generateMCPConfig net stats) !! serverName = Some entry →
     entry = launcher) ∧
  (∀ techStack,
     Enhancer.serversOrEmpty (Planner.generateMCPConfig net techStack) !! serverName = Some entry →
     entry = launcher) ∧
  (∀ techStack existingConfig,
     Enhancer.serversOrEmpty existingConfig !! serverName = None →
     Enhancer.serversOrEmpty
       (Enhancer.generateEnhancedMCPConfig net techStack existingConfig) !! serverName
       = Some entry →
     entry = launcher).
Proof.
  cbv zeta. split_and!.
  - intros stats. unfold Analyzer.generateMCPConfig, Enhancer.serversOrEmpty. simpl.
    rewrite addServers_empty, lookup_fmap.
    destruct (discoverMCPServers _ _ !! serverName) as [info|] eqn:Hl; [|done].
    intros [= <-]. by eapply wellFormed_discovered.
  - intros techStack. unfold Planner.generateMCPConfig, Enhancer.serversOrEmpty. simpl.
    rewrite addServers_empty, lookup_fmap.
    destruct (discoverMCPServers _ _ !! serverName) as [info|] eqn:Hl; [|done].
    intros [= <-]. by eapply wellFormed_discovered.
  - intros techStack existingConfig Hnone.
    rewrite enhanced_servers, lookup_union_r, lookup_fmap by done.
    destruct (discoverMCPServers _ _ !! serverName) as [info|] eqn:Hl; [|done].
    intros [= <-]. by eapply wellFormed_discovered.
Qed.

(** *** Which servers are discovered *)







(** *** Enhancing again, enhancing nothing *)

Lemma filter_none (P : string → Prop) `{∀ x, Decision (P x)} (l : list string) :
  Forall (λ x, ¬ P x) l → filter P l = [].
Proof.
  induction 1 as [|x l Hx _ IH]; [done|]. by rewrite filter_cons, decide_False.
Qed.


Lemma findNewTools_nothing (oldConfig newConfig : MCPConfig) :
  Enhancer.serversOrEmpty oldConfig = Enhancer.serversOrEmpty newConfig →
  Enhancer.findNewTools oldConfig newConfig = [].
Proof.
  intros Hsame. unfold Enhancer.findNewTools. rewrite Hsame.
  apply filter_none, Forall_forall. intros tool Hin.
  unfold includes. by rewrite bool_decide_eq_true_2.
Qed.

(** X18: with the network answering the same, enhancing an enhanced
    configuration again for the same technologies changes nothing and
    reports no new tool. *)
Theorem enhancing_twice_adds_nothing (net : Network) (techStack : Planner.TechnologyStack)
    (existingConfig : MCPConfig) :
  Enhancer.generateEnhancedMCPConfig net techStack
    (Enhancer.generateEnhancedMCPConfig net techStack existingConfig) =
  Enhancer.generateEnhancedMCPConfig net techStack existingConfig ∧
  Enhancer.findNewTools
    (Enhancer.generateEnhancedMCPConfig net techStack existingConfig)
    (Enhancer.generateEnhancedMCPConfig net techStack
       (Enhancer.generateEnhancedMCPConfig net techStack existingConfig)) = [].
Proof.
  assert (Hsame :
    Enhancer.generateEnhancedMCPConfig net techStack
      (Enhancer.generateEnhancedMCPConfig net techStack existingConfig) =
    Enhancer.generateEnhancedMCPConfig net techStack existingConfig).
  { unfold Enhancer.generateEnhancedMCPConfig. simpl. f_equal. f_equal.
    rewrite !addMissingServers_union, <-(assoc (∪)), (idemp (∪)). done. }
  split; [done|]. apply findNewTools_nothing. by rewrite Hsame.
Qed.


End WithRuntime.

Lemma generated_entries_are_npx_launchers_witness :
  mkEntry "npx" ["-y"; "@modelcontextprotocol/server-brave-search"]
    (Some {[ "BRAVE_API_KEY" := "YOUR_API_KEY_HERE" ]}) =
  mkEntry "npx" ["-y"; "@modelcontextprotocol/server-" +:+ "brave-search"]
    (if bool_decide ("brave-search" = "brave-search")
     then Some {[ "BRAVE_API_KEY" := "YOUR_API_KEY_HERE" ]} else None).
Proof.
  apply (proj1 (generated_entries_are_npx_launchers (H:=Sample.runtime) Sample.unreachable
                  "brave-search" _) emptyStats).
  vm_compute. reflexivity.
Defined.


End DiscoveryFacts.

(** ** The enhancer's entry point *)

Module EnhanceFacts.
Import EnhanceEntry ConfigFacts.

Section WithRuntime.
Context `{Runtime}.


End WithRuntime.

End EnhanceFacts.

(** ** Coding rules *)

Module RuleFacts.
Import Discovery Rules RuleWords.

Lemma existsb_name (serverName : string) (rules : list MCPRuleInfo) :
  existsb (λ rule, bool_decide (name rule = serverName)) rules = false ↔
  serverName ∉ name <$> rules.
Proof.
  induction rules as [|rule rules IH]; simpl.
  - split; [intros _; apply not_elem_of_nil|done].
  - rewrite orb_false_iff, IH, bool_decide_eq_false, not_elem_of_cons. intuition.
Qed.

Lemma truthy_nonempty (s : string) : Str.truthy s = true ↔ s ≠ "".
Proof. unfold Str.truthy. by rewrite negb_true_iff, bool_decide_eq_false. Qed.

Lemma firstIncluded_elem (table : list (string * string)) (normalizedTech value : string) :
  firstIncluded table normalizedTech = Some value →
  ∃ key, (key, value) ∈ table ∧ Str.includes normalizedTech key = true.
Proof.
  induction table as [|[key value'] table IH]; [done|]. simpl.
  destruct (Str.includes normalizedTech key) eqn:Hkey.
  - intros [= <-]. exists key. split; [apply list_elem_of_here|done].
  - intros (key' & Hin & Hinc)%IH. exists key'. split; [by apply list_elem_of_further|done].
Qed.

Lemma firstIncluded_some (table : list (string * string)) (normalizedTech key value : string) :
  (key, value) ∈ table → Str.includes normalizedTech key = true →
  is_Some (firstIncluded table normalizedTech).
Proof.
  induction table as [|[key' value'] table IH]; [by intros ?%elem_of_nil|]. simpl.
  intros Hin Hinc. destruct (Str.includes normalizedTech key') eqn:Hkey; [by eexists|].
  apply elem_of_cons in Hin as [[= -> ->]|Hin]; [congruence|by apply IH].
Qed.

Section WithRuntime.
Context `{Runtime}.

Lemma Sound_addRule (tech : string) (rules : list MCPRuleInfo) (item : string * string) :
  Sound rules → Sound (addRule tech rules item).
Proof.
  intros [Hnames Hall]. destruct item as [name' description']. unfold addRule.
  destruct (Str.truthy name' && Str.truthy description' &&
            negb (existsb (λ rule, bool_decide (name rule = name')) rules)) eqn:Hguard;
    [|done].
  rewrite !andb_true_iff, negb_true_iff, existsb_name, !truthy_nonempty in Hguard.
  destruct Hguard as [[Hname Hdescription] Hfresh]. split.
  - rewrite fmap_app. simpl. apply NoDup_app. split_and!; [done| |apply NoDup_singleton].
    intros x Hx ->%list_elem_of_singleton. done.
  - apply Forall_app. split; [done|]. by repeat constructor.
Qed.

Lemma Sound_page (tech : string) (page : list (string * string)) (rules : list MCPRuleInfo) :
  Sound rules → Sound (foldl (addRule tech) rules page).
Proof.
  revert rules. induction page as [|item page IH]; intros rules Hrules; [done|].
  simpl. by apply IH, Sound_addRule.
Qed.

Lemma Sound_getDefaultRules (technologies : list string) :
  Sound (getDefaultRules technologies) ∧ getDefaultRules technologies ≠ [].
Proof.
  unfold getDefaultRules.
  destruct (existsb _ technologies), (existsb _ technologies); simpl.
  all: split; [split|done].
  all: first [ apply (bool_decide_unpack _); vm_compute; exact I
             | repeat constructor; done ].
Qed.

(** X21: whatever the pages hold and whichever searches fail,
    [searchCursorRules] answers with at least one rule; its rules have
    pairwise distinct names, are all enabled, and have a name and a
    description; when every search fails, they are the default rules. *)
Theorem searchCursorRules_sound (site : string → response (list (string * string)))
    (technologies : list string) :
  searchCursorRules site technologies ≠ [] ∧
  Sound (searchCursorRules site technologies) ∧
  ((∀ tech, tech ∈ technologies → site tech = Rejected) →
   searchCursorRules site technologies = getDefaultRules technologies).
Proof.
  unfold searchCursorRules.
  set (step := λ rules tech,
                 match site tech with
                 | Rejected => rules
                 | Resolved page => foldl (addRule tech) rules page
                 end).
  assert (Hsound : ∀ techs rules, Sound rules → Sound (foldl step rules techs)).
  { induction techs as [|tech techs IH]; intros rules Hrules; [done|].
    simpl. apply IH. unfold step. destruct (site tech); [done|by apply Sound_page]. }
  assert (Hrejected : ∀ techs rules,
            (∀ tech, tech ∈ techs → site tech = Rejected) → foldl step rules techs = rules).
  { induction techs as [|tech techs IH]; intros rules Hall; [done|].
    simpl. rewrite IH by (intros tech' Hin; apply Hall; by apply list_elem_of_further).
    unfold step. by rewrite Hall by apply list_elem_of_here. }
  split_and!.
  - case_bool_decide as Hlen; [apply Sound_getDefaultRules|].
    intros Hnil. by rewrite Hnil in Hlen.
  - case_bool_decide; [apply Sound_getDefaultRules|].
    apply Hsound. split; [apply NoDup_nil_2|constructor].
  - intros Hall. by rewrite Hrejected.
Qed.

(** X22: a technology that gets a default pattern gets a scope as well;
    and the tables are searched in order, so a technology whose lower-cased
    name contains [javascript] is scoped [js,jsx], not [java]. *)
Theorem pattern_comes_with_scope (tech : string) :
  (is_Some (getDefaultPatternForTech tech) → is_Some (getScopeForTech tech)) ∧
  (Str.includes (toLowerCase tech) "javascript" = true →
   getScopeForTech tech = Some "js,jsx" ∧
   getDefaultPatternForTech tech = Some "(?<![;{}])\s*$").
Proof.
  unfold getDefaultPatternForTech, getScopeForTech. split.
  - intros [pattern' (key & Hin & Hinc)%firstIncluded_elem].
    unfold patterns in Hin. rewrite !elem_of_cons, elem_of_nil in Hin.
    destruct Hin as [[= -> _]|[[= -> _]|[[= -> _]|[]]]].
    + eapply (firstIncluded_some _ _ "javascript"); [|done]. apply list_elem_of_here.
    + eapply (firstIncluded_some _ _ "typescript"); [|done].
      apply list_elem_of_further, list_elem_of_here.
    + eapply (firstIncluded_some _ _ "python"); [|done].
      do 3 apply list_elem_of_further. apply list_elem_of_here.
  - intros Hjs. simpl. by rewrite Hjs.
Qed.

End WithRuntime.

Lemma searchCursorRules_sound_witness :
  searchCursorRules (H:=Sample.runtime) (λ _, Rejected) ["Python"; "Django"] =
  getDefaultRules (H:=Sample.runtime) ["Python"; "Django"].
Proof.
  apply (proj2 (proj2 (searchCursorRules_sound (H:=Sample.runtime) (λ _, Rejected)
                         ["Python"; "Django"]))).
  reflexivity.
Defined.

Lemma pattern_comes_with_scope_witness :
  getScopeForTech (H:=Sample.runtime) "JavaScript (ES2020)" = Some "js,jsx" ∧
  getDefaultPatternForTech (H:=Sample.runtime) "JavaScript (ES2020)" = Some "(?<![;{}])\s*$".
Proof.
  apply (proj2 (pattern_comes_with_scope (H:=Sample.runtime) "JavaScript (ES2020)")).
  reflexivity.
Defined.

End RuleFacts.
